(** * aws_ses: profile resolution, request assembly and the Lambda handler

    A shallow embedding of [src/aws_ses/profile_manager.py],
    [src/aws_ses/ses_client.py] and [src/aws_ses/lambda_handler.py].

    Python objects are values of the type [value]; dictionaries are finite
    maps with string keys.  The code talks to boto3 and prints: every such
    interaction is recorded, in order, in a trace of [call]s, and an
    exception ends the computation (the monad [M]).  boto3 itself is a
    parameter: a record of functions that answer each call. *)

From stdpp Require Import gmap strings list.
From Stdlib Require Import ZArith Ascii String.

Set Warnings "-register-all".

(** ** Python values *)

(** The objects the code handles: what [json] gives the handler as an event
    and what the code builds from it.  Numbers are modelled by integers; the
    code inspects a number only for its truth value. *)
Inductive value :=
  | VNone
  | VBool (b : bool)
  | VInt (n : Z)
  | VStr (s : string)
  | VList (l : list value)
  | VDict (d : gmap string value).

(** [bool(v)], the test behind [if v], [not v], [v or w] and [all]. *)
Definition truthy (v : value) : bool :=
  match v with
  | VNone => false
  | VBool b => b
  | VInt n => negb (n =? 0)%Z
  | VStr s => negb (String.eqb s "")
  | VList l => match l with [] => false | _ => true end
  | VDict d => negb (Nat.eqb (size d) 0)
  end.

(** [isinstance(v, str)] *)
Definition isinstance_str (v : value) : bool :=
  match v with VStr _ => true | _ => false end.

(** [type(v).__name__], as it appears in the text of an [AttributeError]. *)
Definition type_name (v : value) : string :=
  match v with
  | VNone => "NoneType"
  | VBool _ => "bool"
  | VInt _ => "int"
  | VStr _ => "str"
  | VList _ => "list"
  | VDict _ => "dict"
  end.

(** [a or b] *)
Definition py_or (a b : value) : value := if truthy a then a else b.

(** [d.get(k)] on a dictionary: [None] when the key is absent. *)
Definition dict_get (d : gmap string value) (k : string) : value :=
  default VNone (d !! k).

(** [os.environ.get(k)] *)
Definition environ_get (environ : gmap string string) (k : string) : value :=
  match environ !! k with Some s => VStr s | None => VNone end.

(** [v[k] = x] where [v] is a dictionary. *)
Definition setitem (k : string) (x : value) (v : value) : value :=
  match v with VDict d => VDict (<[k:=x]> d) | _ => v end.

(** ** Strings *)

(** A string is its UTF-8 bytes.  [str.lower] is modelled on the ASCII
    letters; no character outside ASCII lowers to a letter of ["latest"], so
    the comparison [s.lower() == "latest"] is the same on both sides. *)
Definition lower_ascii (c : ascii) : ascii :=
  let n := N_of_ascii c in
  if ((65 <=? n) && (n <=? 90))%N then ascii_of_N (n + 32) else c.

Fixpoint lower (s : string) : string :=
  match s with
  | EmptyString => EmptyString
  | String c s' => String (lower_ascii c) (lower s')
  end.

(** [s.startswith(sub)] *)
Fixpoint startswith (s sub : string) {struct sub} : bool :=
  match sub with
  | EmptyString => true
  | String a sub' =>
      match s with
      | EmptyString => false
      | String b s' => Ascii.eqb a b && startswith s' sub'
      end
  end.

(** [sub in s] on strings. *)
Fixpoint str_in (sub s : string) : bool :=
  startswith s sub ||
  match s with
  | EmptyString => false
  | String _ s' => str_in sub s'
  end.

(** ** Exceptions, calls and the monad *)

(** The subclasses of [Exception] that the code raises, catches or meets. *)
Inductive exn_class :=
  | ValueError | KeyError | IndexError | AttributeError
  | ClientError | ProfileNotFound | OtherError.

(** An exception: its class and [str(e)]. *)
Record exn := Exn { class_of : exn_class; str : string }.

Definition is_ClientError (e : exn) : bool :=
  match class_of e with ClientError => true | _ => false end.

(** What the code does to the outside, in the order it does it. *)
Inductive call :=
  | CallSession (profile_name : value)
  | CallClient (service : string) (region_name : value)
  | CallSendEmail (email_params : gmap string value)
  | CallPrint (line : string).

(** A computation: the calls it made, and an exception or a result. *)
Definition M (A : Type) : Type := list call * (exn + A).

#[export] Instance M_ret : MRet M := λ A a, ([], inr a).

#[export] Instance M_bind : MBind M := λ A B f m,
  match m with
  | (t, inl e) => (t, inl e)
  | (t, inr a) => let '(t', r) := f a in (t ++ t', r)
  end.

Definition raise {A} (c : exn_class) (msg : string) : M A :=
  ([], inl (Exn c msg)).

Definition reraise {A} (e : exn) : M A := ([], inl e).

(** One call to the outside and its answer. *)
Definition extern {A} (c : call) (answer : exn + A) : M A := ([c], answer).

Definition print (line : string) : M unit := ([CallPrint line], inr tt).

(** [try: m  except <class> as e: h e], where [catches] selects the class. *)
Definition try_except {A} (m : M A) (catches : exn → bool) (h : exn → M A) : M A :=
  match m with
  | (t, inl e) => if catches e then let '(t', r) := h e in (t ++ t', r) else (t, inl e)
  | (t, inr a) => (t, inr a)
  end.

(** [v.lower()]: only a string has the method. *)
Definition method_lower (v : value) : M string :=
  match v with
  | VStr s => mret (lower s)
  | _ => raise AttributeError ("'" +:+ type_name v +:+ "' object has no attribute 'lower'")
  end.

(** The requests sent to the remote service, among the calls of a trace. *)
Definition sent (t : list call) : list (gmap string value) :=
  omap (λ c, match c with CallSendEmail p => Some p | _ => None end) t.

(** ** boto3 *)

(** The SES client of boto3: [client.send_email], called with the entries
    of [email_params] as keyword arguments. *)
Record ses_api := { api_send_email : gmap string value → exn + gmap string value }.

(** A [boto3.Session]: [session.available_profiles] and [session.client]. *)
Record boto_session := {
  available_profiles : list string;
  client : string → value → exn + ses_api
}.

(** The module [boto3]: [boto3.Session(profile_name=p)], with [p = None]
    for [boto3.Session()]. *)
Record boto3_module := { Session : value → exn + boto_session }.

(** ** profile_manager.py *)

Section ProfileManager.
Context (boto3 : boto3_module).

Definition get_available_profiles : M (list string) :=
  s ← extern (CallSession VNone) (Session boto3 VNone);
  mret (available_profiles s).

Definition get_latest_profile : M value :=
  profiles ← get_available_profiles;
  match profiles with
  | [] => mret VNone
  | _ =>
      match last profiles with
      | Some p => mret (VStr p)
      | None => raise IndexError "list index out of range"
      end
  end.

Definition validate_profile (profile_name : value) : M bool :=
  l ← method_lower profile_name;
  if String.eqb l "latest" then
    profiles ← get_available_profiles;
    mret (match profiles with [] => false | _ => true end)
  else
    try_except
      (_ ← extern (CallSession profile_name) (Session boto3 profile_name);
       mret true)
      (λ e, match class_of e with ProfileNotFound => true | _ => false end)
      (λ _, mret false).

Definition resolve_profile_name (profile_name : value) : M value :=
  if negb (truthy profile_name) then mret VNone
  else
    l ← method_lower profile_name;
    if String.eqb l "latest" then
      latest_profile ← get_latest_profile;
      if negb (truthy latest_profile) then
        raise ValueError "No AWS profiles found when trying to use 'latest'"
      else mret latest_profile
    else mret profile_name.

End ProfileManager.

(** ** ses_client.py *)

(** The attributes of an [SESClient] object. *)
Record SESClient := {
  self_profile_name : value;
  self_region_name : value;
  self_session : boto_session;
  self_client : ses_api
}.

Section SESClient.
Context (boto3 : boto3_module).

(** Returns the session and the value of [self.profile_name] afterwards
    (the ["latest"] branch assigns to it). *)
Definition _create_session (profile_name : value) : M (value * boto_session) :=
  if negb (truthy profile_name) then
    s ← extern (CallSession VNone) (Session boto3 VNone);
    mret (profile_name, s)
  else
    l ← method_lower profile_name;
    if String.eqb l "latest" then
      s0 ← extern (CallSession VNone) (Session boto3 VNone);
      match available_profiles s0 with
      | [] => raise ValueError "No AWS profiles found"
      | _ =>
          match last (available_profiles s0) with
          | Some p =>
              s ← extern (CallSession (VStr p)) (Session boto3 (VStr p));
              mret (VStr p, s)
          | None => raise IndexError "list index out of range"
          end
      end
    else
      s ← extern (CallSession profile_name) (Session boto3 profile_name);
      mret (profile_name, s).

Definition __init__ (profile_name region_name : value) : M SESClient :=
  '(profile_name', session) ← _create_session profile_name;
  c ← extern (CallClient "ses" region_name) (client session "ses" region_name);
  mret {| self_profile_name := profile_name';
          self_region_name := region_name;
          self_session := session;
          self_client := c |}.

End SESClient.

(** Lines 82-83: [to_addresses] is wrapped when it is a string. *)
Definition to_list (v : value) : value :=
  if isinstance_str v then VList [v] else v.

(** Lines 84-89: [cc_addresses], [bcc_addresses] and [reply_to_addresses]
    are wrapped when they are true and a string. *)
Definition optional_to_list (v : value) : value :=
  if truthy v && isinstance_str v then VList [v] else v.

Definition send_email (self : SESClient)
    (source to_addresses subject body_text
     body_html cc_addresses bcc_addresses reply_to_addresses : value)
  : M (gmap string value) :=
  let to_addresses := to_list to_addresses in
  let cc_addresses := optional_to_list cc_addresses in
  let bcc_addresses := optional_to_list bcc_addresses in
  let reply_to_addresses := optional_to_list reply_to_addresses in
  let message : gmap string value :=
    {[ "Subject" := VDict {[ "Data" := subject ]};
       "Body" := VDict {[ "Text" := VDict {[ "Data" := body_text ]} ]} ]} in
  let message :=
    if truthy body_html
    then alter (setitem "Html" (VDict {[ "Data" := body_html ]})) "Body" message
    else message in
  let destination : gmap string value := {[ "ToAddresses" := to_addresses ]} in
  let destination :=
    if truthy cc_addresses then <["CcAddresses" := cc_addresses]> destination
    else destination in
  let destination :=
    if truthy bcc_addresses then <["BccAddresses" := bcc_addresses]> destination
    else destination in
  let email_params : gmap string value :=
    {[ "Source" := source;
       "Destination" := VDict destination;
       "Message" := VDict message ]} in
  let email_params :=
    if truthy reply_to_addresses
    then <["ReplyToAddresses" := reply_to_addresses]> email_params
    else email_params in
  try_except
    (extern (CallSendEmail email_params)
            (api_send_email (self_client self) email_params))
    is_ClientError
    (λ e, _ ← print ("Error sending email: " +:+ str e); reraise e).

(** ** lambda_handler.py *)

(** [json.dumps(obj)]: the text is kept as the object it encodes, which
    [json.loads] gives back. *)
Inductive json_text := json_dumps (obj : value).

Definition json_loads (t : json_text) : value :=
  match t with json_dumps obj => obj end.

(** The dictionary the handler returns. *)
Record response := { statusCode : Z; body : json_text }.

(** [d[k]] on a dictionary. *)
Definition getitem (d : gmap string value) (k : string) : M value :=
  match d !! k with
  | Some v => mret v
  | None => raise KeyError ("'" +:+ k +:+ "'")
  end.

Section Handler.
Context (boto3 : boto3_module) (environ : gmap string string).

(** The body of the [try] block: a response, or the exception that the
    [except Exception] clause receives. *)
Definition handler_try (event : gmap string value) : M response :=
  let source := dict_get event "source" in
  let to_addresses := dict_get event "to_addresses" in
  let subject := dict_get event "subject" in
  let body_text := dict_get event "body_text" in
  let body_html := dict_get event "body_html" in
  let cc_addresses := dict_get event "cc_addresses" in
  let bcc_addresses := dict_get event "bcc_addresses" in
  let reply_to_addresses := dict_get event "reply_to_addresses" in
  let profile_name := py_or (dict_get event "profile_name") (environ_get environ "AWS_PROFILE") in
  let region_name := py_or (dict_get event "region_name") (environ_get environ "AWS_REGION") in
  if negb (forallb truthy [source; to_addresses; subject; body_text]) then
    mret {| statusCode := 400;
            body := json_dumps (VDict {[ "message" :=
              VStr "Missing required parameters. Required: source, to_addresses, subject, body_text" ]}) |}
  else
    ses_client ← __init__ boto3 profile_name region_name;
    response ← send_email ses_client source to_addresses subject body_text
                 body_html cc_addresses bcc_addresses reply_to_addresses;
    message_id ← getitem response "MessageId";
    mret {| statusCode := 200;
            body := json_dumps (VDict {[ "message" := VStr "Email sent successfully";
                                         "messageId" := message_id ]}) |}.

(** The handler: the calls it made and the response it returned. *)
Definition handler (event : gmap string value) : list call * response :=
  match handler_try event with
  | (t, inr r) => (t, r)
  | (t, inl e) =>
      (t, {| statusCode := 500;
             body := json_dumps (VDict {[ "message" :=
               VStr ("Error sending email: " +:+ str e) ]}) |})
  end.

End Handler.

(** The ["message"] entry of a response body, read back with [json.loads]. *)
Definition body_message (r : response) : option value :=
  match json_loads (body r) with
  | VDict d => d !! "message"
  | _ => None
  end.

(** ** Reading a request *)

(** The entry of a nested dictionary under a path of keys. *)
Fixpoint lookup_path (v : value) (path : list string) : option value :=
  match path with
  | [] => Some v
  | k :: rest =>
      match v with
      | VDict d => d !! k ≫= λ v', lookup_path v' rest
      | _ => None
      end
  end.

Definition nonempty_str (v : value) : bool :=
  match v with VStr s => negb (String.eqb s "") | _ => false end.

Definition nonempty_list (v : value) : bool :=
  match v with VList (_ :: _) => true | _ => false end.

(** The invariant of an Email Request on the request sent: a non-empty
    collection of [to] addresses; [source], [subject] and [body_text]
    non-empty strings. *)
Definition request_invariant (p : gmap string value) : bool :=
  from_option nonempty_list false (lookup_path (VDict p) ["Destination"; "ToAddresses"])
  && from_option nonempty_str false (lookup_path (VDict p) ["Source"])
  && from_option nonempty_str false (lookup_path (VDict p) ["Message"; "Subject"; "Data"])
  && from_option nonempty_str false (lookup_path (VDict p) ["Message"; "Body"; "Text"; "Data"]).

(** The same conditions on the arguments of [send_email]. *)
Definition arguments_invariant (source to_addresses subject body_text : value) : bool :=
  (isinstance_str to_addresses || nonempty_list to_addresses)
  && nonempty_str source && nonempty_str subject && nonempty_str body_text.

(** ** A boto3 with fixed answers

    As the tests of the repository do with mocks: every session lists
    [profiles], every client is created, and [send_email] answers [answer]. *)
Definition fixed_boto3 (profiles : list string) (answer : exn + gmap string value)
  : boto3_module :=
  {| Session := λ _,
       inr {| available_profiles := profiles;
              client := λ _ _, inr {| api_send_email := λ _, answer |} |} |}.

Definition fixed_client (answer : exn + gmap string value) : SESClient :=
  {| self_profile_name := VNone;
     self_region_name := VNone;
     self_session := {| available_profiles := [];
                        client := λ _ _, inr {| api_send_email := λ _, answer |} |};
     self_client := {| api_send_email := λ _, answer |} |}.

(** The event of the minimal scenario. *)
Definition minimal_event : gmap string value :=
  {[ "source" := VStr "a@x.com";
     "to_addresses" := VStr "b@x.com";
     "subject" := VStr "s";
     "body_text" := VStr "t" ]}.

(** ** Reading the handler *)

(** The test of line 51: every required entry of the event is true, that
    is present and neither [None] nor empty. *)
Definition required_supplied (event : gmap string value) : bool :=
  forallb truthy [dict_get event "source"; dict_get event "to_addresses";
                  dict_get event "subject"; dict_get event "body_text"].

(** The construction of line 60, with the profile and region the handler
    takes from the event or else from the environment. *)
Definition handler_client (boto3 : boto3_module) (environ : gmap string string)
    (event : gmap string value) : M SESClient :=
  __init__ boto3
    (py_or (dict_get event "profile_name") (environ_get environ "AWS_PROFILE"))
    (py_or (dict_get event "region_name") (environ_get environ "AWS_REGION")).

(** The call of lines 63-72. *)
Definition handler_send (self : SESClient) (event : gmap string value)
  : M (gmap string value) :=
  send_email self (dict_get event "source") (dict_get event "to_addresses")
    (dict_get event "subject") (dict_get event "body_text")
    (dict_get event "body_html") (dict_get event "cc_addresses")
    (dict_get event "bcc_addresses") (dict_get event "reply_to_addresses").

(** The response of lines 52-57. *)
Definition missing_parameters : response :=
  {| statusCode := 400;
     body := json_dumps (VDict {[ "message" :=
       VStr "Missing required parameters. Required: source, to_addresses, subject, body_text" ]}) |}.

(** The required entries of an event, each with its empty value. *)
Definition empty_required : list (string * value) :=
  [("source", VStr ""); ("to_addresses", VList []);
   ("subject", VStr ""); ("body_text", VStr "")].

(** [isinstance(v, list)] *)
Definition isinstance_list (v : value) : bool :=
  match v with VList _ => true | _ => false end.

(** The keys of an event that the handler reads. *)
Definition event_keys : list string :=
  ["source"; "to_addresses"; "subject"; "body_text"; "body_html";
   "cc_addresses"; "bcc_addresses"; "reply_to_addresses";
   "profile_name"; "region_name"].

(** ** ses_client.py: the other operations *)

(** The other operations of the boto3 client that [SESClient] uses:
    [verify_email_identity(EmailAddress=..)], [list_identities(IdentityType=..)],
    [get_send_quota()] and [get_send_statistics()]. *)
Record ses_operations := {
  api_verify_email_identity : value → exn + gmap string value;
  api_list_identities : string → exn + gmap string value;
  api_get_send_quota : exn + gmap string value;
  api_get_send_statistics : exn + gmap string value
}.

(** What the code does to the outside, with those operations and the
    output of the command line added to the calls above. *)
Inductive effect :=
  | Boto (c : call)
  | CallVerifyEmailIdentity (email_address : value)
  | CallListIdentities (identity_type : string)
  | CallGetSendQuota
  | CallGetSendStatistics
  | Echo (message : string) (err : bool).

(** How a computation ends: a result, an exception, or [sys.exit(code)],
    which no [except Exception] clause catches. *)
Inductive outcome (A : Type) :=
  | Return (a : A)
  | Raise (e : exn)
  | Exit (code : Z).

Arguments Return {A} a.
Arguments Raise {A} e.
Arguments Exit {A} code.

Definition C (A : Type) : Type := list effect * outcome A.

#[export] Instance C_ret : MRet C := λ A a, ([], Return a).

#[export] Instance C_bind : MBind C := λ A B f m,
  match m with
  | (t, Return a) => let '(t', r) := f a in (t ++ t', r)
  | (t, Raise e) => (t, Raise e)
  | (t, Exit code) => (t, Exit code)
  end.

Definition outcome_of {A} (r : exn + A) : outcome A :=
  match r with inl e => Raise e | inr a => Return a end.

(** A computation of the first kind inside one of the second. *)
Definition lift {A} (m : M A) : C A := (Boto <$> m.1, outcome_of m.2).

Definition remote {A} (c : effect) (answer : exn + A) : C A :=
  ([c], outcome_of answer).

Definition echo (message : string) (err : bool) : C unit :=
  ([Echo message err], Return tt).

Definition sys_exit {A} (code : Z) : C A := ([], Exit code).

(** [try: m  except <class> as e: h e] *)
Definition try_catch {A} (m : C A) (catches : exn → bool) (h : exn → C A) : C A :=
  match m with
  | (t, Raise e) => if catches e then let '(t', r) := h e in (t ++ t', r) else (t, Raise e)
  | (t, r) => (t, r)
  end.

(** [except Exception] *)
Definition any_exception (e : exn) : bool := true.

(** The lines echoed, in order, each with its [err] flag. *)
Definition echoes (t : list effect) : list (string * bool) :=
  omap (λ c, match c with Echo m err => Some (m, err) | _ => None end) t.

(** The calls to boto3 among the effects. *)
Definition boto_calls (t : list effect) : list call :=
  omap (λ c, match c with Boto c => Some c | _ => None end) t.

Section SESClientOperations.
(** The other operations of a client object. *)
Context (operations : ses_api → ses_operations).

Definition verify_email_identity (self : SESClient) (email_address : value)
  : C (gmap string value) :=
  try_catch
    (remote (CallVerifyEmailIdentity email_address)
       (api_verify_email_identity (operations (self_client self)) email_address))
    is_ClientError
    (λ e, _ ← lift (print ("Error verifying email identity: " +:+ str e));
          ([], Raise e)).

Definition list_verified_email_addresses (self : SESClient) : C value :=
  try_catch
    (response ← remote (CallListIdentities "EmailAddress")
                  (api_list_identities (operations (self_client self)) "EmailAddress");
     mret (default (VList []) (response !! "Identities")))
    is_ClientError
    (λ e, _ ← lift (print ("Error listing verified email addresses: " +:+ str e));
          ([], Raise e)).

Definition get_send_quota (self : SESClient) : C (gmap string value) :=
  try_catch
    (remote CallGetSendQuota (api_get_send_quota (operations (self_client self))))
    is_ClientError
    (λ e, _ ← lift (print ("Error getting send quota: " +:+ str e));
          ([], Raise e)).

Definition get_send_statistics (self : SESClient) : C (gmap string value) :=
  try_catch
    (remote CallGetSendStatistics
       (api_get_send_statistics (operations (self_client self))))
    is_ClientError
    (λ e, _ ← lift (print ("Error getting send statistics: " +:+ str e));
          ([], Raise e)).

End SESClientOperations.

(** ** cli.py *)

(** An optional string of the command line as a value. *)
Definition optional (o : option string) : value :=
  match o with Some s => VStr s | None => VNone end.

(** [list(t) if t else None] for a tuple of strings. *)
Definition list_or_none (t : list string) : value :=
  match t with [] => VNone | _ => VList (VStr <$> t) end.

(** [profile == latest] where [latest] is a string or [None]. *)
Definition str_eq (profile : string) (latest : value) : bool :=
  match latest with VStr q => String.eqb profile q | _ => false end.

Section Cli.
Context (boto3 : boto3_module) (operations : ses_api → ses_operations).
(** [str(v)], as an f-string formats what the remote service returned. *)
Context (format : value → string).

(** The group callback: the options are kept in [ctx.obj], here the pair
    of the profile and the region. *)
Definition cli (profile region : option string)
  : C (option string * option string) :=
  match profile with
  | None => mret (profile, region)
  | Some p =>
      if negb (truthy (VStr p)) then mret (profile, region)
      else
        valid ← lift (validate_profile boto3 (VStr p));
        if (valid : bool) then mret (profile, region)
        else
          none ← (if String.eqb (lower p) "latest" then
                    profiles ← lift (get_available_profiles boto3);
                    mret (match profiles with [] => true | _ => false end)
                  else mret false);
          _ ← (if (none : bool)
               then echo "No AWS profiles found when trying to use 'latest'" true
               else echo ("Profile '" +:+ p +:+ "' not found") true);
          sys_exit 1
  end.

Definition send (ctx : option string * option string) (from_email : string)
    (to cc bcc reply_to : list string) (subject body_text : string)
    (body_html : option string) : C unit :=
  let profile := ctx.1 in
  let region := ctx.2 in
  try_catch
    (ses_client ← lift (__init__ boto3 (optional profile) (optional region));
     response ← lift (send_email ses_client (VStr from_email) (VList (VStr <$> to))
                        (VStr subject) (VStr body_text) (optional body_html)
                        (list_or_none cc) (list_or_none bcc) (list_or_none reply_to));
     message_id ← lift (getitem response "MessageId");
     echo ("Email sent! Message ID: " +:+ format message_id) false)
    any_exception
    (λ e, _ ← echo ("Error sending email: " +:+ str e) true; sys_exit 1).

Definition verify (ctx : option string * option string) (email : string) : C unit :=
  let profile := ctx.1 in
  let region := ctx.2 in
  try_catch
    (ses_client ← lift (__init__ boto3 (optional profile) (optional region));
     _ ← verify_email_identity operations ses_client (VStr email);
     echo ("Verification email sent to " +:+ email +:+ ". "
           +:+ "Check your inbox and follow the instructions to complete verification.")
          false)
    any_exception
    (λ e, _ ← echo ("Error verifying email: " +:+ str e) true; sys_exit 1).

(** The loop of [list_profiles]: [get_latest_profile] is called for each
    profile. *)
Fixpoint list_profiles_loop (profiles : list string) : C unit :=
  match profiles with
  | [] => mret tt
  | profile :: rest =>
      latest ← lift (get_latest_profile boto3);
      _ ← (if str_eq profile latest
           then echo ("  - " +:+ profile +:+ " (latest)") false
           else echo ("  - " +:+ profile) false);
      list_profiles_loop rest
  end.

Definition list_profiles : C unit :=
  profiles ← lift (get_available_profiles boto3);
  match profiles with
  | [] => echo "No AWS profiles found." false
  | _ => _ ← echo "Available AWS profiles:" false; list_profiles_loop profiles
  end.

End Cli.

(** The operations of a client with fixed answers. *)
Definition fixed_operations (identities : exn + gmap string value)
    (answer : exn + gmap string value) : ses_api → ses_operations :=
  λ _, {| api_verify_email_identity := λ _, answer;
          api_list_identities := λ _, identities;
          api_get_send_quota := answer;
          api_get_send_statistics := answer |}.

(** The line that the methods of [SESClient] print for a [ClientError]. *)
Definition printed (prefix : string) {A} (answer : exn + A) : list effect :=
  match answer with
  | inl e => if is_ClientError e then [Boto (CallPrint (prefix +:+ str e))] else []
  | inr _ => []
  end.

(** The line of [list_profiles] for a profile, [latest] being the last one. *)
Definition profile_line (latest profile : string) : string :=
  if String.eqb profile latest
  then "  - " +:+ profile +:+ " (latest)"
  else "  - " +:+ profile.

(** A boto3 that binds a session to the configured profiles only, and
    raises [ProfileNotFound] for any other name. *)
Definition configured_boto3 (profiles : list string)
    (answer : exn + gmap string value) : boto3_module :=
  {| Session := λ p,
       match p with
       | VStr n =>
           if bool_decide (n ∈ profiles)
           then Session (fixed_boto3 profiles answer) p
           else inl (Exn ProfileNotFound
                       ("The config profile (" +:+ n +:+ ") could not be found"))
       | _ => Session (fixed_boto3 profiles answer) p
       end |}.

(** * Properties *)

(** ** Strings *)

Lemma startswith_app (s t : string) : startswith (s +:+ t) s = true.
Proof.
  induction s as [|c s IH]; simpl; [reflexivity|].
  rewrite Ascii.eqb_refl. exact IH.
Qed.

Lemma str_in_startswith (sub s : string) : startswith s sub = true → str_in sub s = true.
Proof. intros H. destruct s; simpl; rewrite H; reflexivity. Qed.

Lemma str_in_app (pre sub post : string) : str_in sub (pre +:+ (sub +:+ post)) = true.
Proof.
  induction pre as [|c pre IH]; simpl.
  - apply (str_in_startswith sub (sub +:+ post)), (startswith_app sub post).
  - rewrite IH. apply orb_true_r.
Qed.

Lemma startswith_refl (s : string) : startswith s s = true.
Proof. induction s as [|c s IH]; simpl; [reflexivity|]. rewrite Ascii.eqb_refl. exact IH. Qed.

Lemma str_in_app_r (pre sub : string) : str_in sub (pre +:+ sub) = true.
Proof.
  induction pre as [|c pre IH]; simpl.
  - apply str_in_startswith, startswith_refl.
  - rewrite IH. apply orb_true_r.
Qed.

Lemma nonempty_eqb (s : string) : s ≠ "" → String.eqb s "" = false.
Proof. intros H. apply String.eqb_neq. exact H. Qed.

(** ** Truth values *)

Lemma truthy_optional_to_list (v : value) :
  truthy (optional_to_list v) = truthy v.
Proof.
  unfold optional_to_list.
  destruct (truthy v) eqn:E; simpl; [|exact E].
  destruct (isinstance_str v); [reflexivity | exact E].
Qed.

Lemma truthy_str_nonempty (v : value) :
  isinstance_str v = true → truthy v = true → nonempty_str v = true.
Proof. destruct v; simpl; congruence. Qed.

Lemma truthy_to_list_nonempty (v : value) :
  isinstance_str v || isinstance_list v = true → truthy v = true →
  nonempty_list (to_list v) = true.
Proof. destruct v as [| | | |[|]|]; simpl; intros; congruence. Qed.

(** ** send_email: the request *)

(** [send_email] makes one remote call whatever its arguments are, and the
    request of that call holds the arguments as follows. *)
Lemma send_email_sent (self : SESClient)
    (source to_addresses subject body_text body_html cc bcc reply_to : value) :
  ∃ p : gmap string value,
    sent (send_email self source to_addresses subject body_text
            body_html cc bcc reply_to).1 = [p]
    ∧ lookup_path (VDict p) ["Source"] = Some source
    ∧ lookup_path (VDict p) ["Destination"; "ToAddresses"] = Some (to_list to_addresses)
    ∧ lookup_path (VDict p) ["Destination"; "CcAddresses"]
      = (if truthy cc then Some (optional_to_list cc) else None)
    ∧ lookup_path (VDict p) ["Destination"; "BccAddresses"]
      = (if truthy bcc then Some (optional_to_list bcc) else None)
    ∧ lookup_path (VDict p) ["ReplyToAddresses"]
      = (if truthy reply_to then Some (optional_to_list reply_to) else None)
    ∧ lookup_path (VDict p) ["Message"; "Subject"; "Data"] = Some subject
    ∧ lookup_path (VDict p) ["Message"; "Body"; "Text"; "Data"] = Some body_text
    ∧ lookup_path (VDict p) ["Message"; "Body"; "Text"]
      = Some (VDict {[ "Data" := body_text ]})
    ∧ lookup_path (VDict p) ["Message"; "Body"; "Html"]
      = (if truthy body_html then Some (VDict {[ "Data" := body_html ]}) else None).
Proof.
  unfold send_email. rewrite !truthy_optional_to_list.
  match goal with
  | |- context [extern (CallSendEmail ?q) _] => set (p := q)
  end.
  exists p. split.
  - unfold try_except, extern.
    destruct (api_send_email (self_client self) p) as [e|r]; [|reflexivity].
    destruct (is_ClientError e); reflexivity.
  - subst p.
    destruct (truthy cc), (truthy bcc), (truthy reply_to), (truthy body_html);
      repeat split; reflexivity.
Qed.

(** The calls of [send_email] other than the request are prints. *)
Lemma send_email_one_request (self : SESClient)
    (source to_addresses subject body_text body_html cc bcc reply_to : value) :
  List.length (sent (send_email self source to_addresses subject body_text
                       body_html cc bcc reply_to).1) = 1.
Proof.
  destruct (send_email_sent self source to_addresses subject body_text
              body_html cc bcc reply_to) as (p & -> & _).
  reflexivity.
Qed.

(** ** Normalization of the recipient parameters *)

Lemma optional_entry_rules (v : value) (entry : option value) :
  entry = (if truthy v then Some (optional_to_list v) else None) →
  (∀ s : string, v = VStr s → s ≠ "" → entry = Some (VList [VStr s]))
  ∧ (∀ l : list value, v = VList l → l ≠ [] → entry = Some (VList l))
  ∧ (v = VStr "" ∨ v = VList [] ∨ v = VNone → entry = None).
Proof.
  intros ->. split; [|split].
  - intros s -> Hs. unfold optional_to_list. simpl.
    rewrite (nonempty_eqb s Hs). reflexivity.
  - intros l -> Hl. destruct l; [congruence | reflexivity].
  - intros [->|[->| ->]]; reflexivity.
Qed.

(** C1 (as amended).  In the request that [send_email] sends:
    [to_addresses] given as a string [s] is the one-element list [[s]], and
    given as a list it is that list unchanged.  Each of [cc_addresses],
    [bcc_addresses] and [reply_to_addresses] given as a non-empty string
    [s] is [[s]], and given as a non-empty list it is that list unchanged;
    the empty string is not wrapped: like the empty list and [None] it
    leaves the entry out of the request. *)
Theorem recipient_normalization (self : SESClient)
    (source to_addresses subject body_text body_html cc bcc reply_to : value) :
  ∃ p : gmap string value,
    sent (send_email self source to_addresses subject body_text
            body_html cc bcc reply_to).1 = [p]
    ∧ (∀ s : string, to_addresses = VStr s →
         lookup_path (VDict p) ["Destination"; "ToAddresses"] = Some (VList [VStr s]))
    ∧ (∀ l : list value, to_addresses = VList l →
         lookup_path (VDict p) ["Destination"; "ToAddresses"] = Some (VList l))
    ∧ Forall (λ '(v, path),
        (∀ s : string, v = VStr s → s ≠ "" →
           lookup_path (VDict p) path = Some (VList [VStr s]))
        ∧ (∀ l : list value, v = VList l → l ≠ [] →
             lookup_path (VDict p) path = Some (VList l))
        ∧ (v = VStr "" ∨ v = VList [] ∨ v = VNone →
             lookup_path (VDict p) path = None))
        [(cc, ["Destination"; "CcAddresses"]);
         (bcc, ["Destination"; "BccAddresses"]);
         (reply_to, ["ReplyToAddresses"])].
Proof.
  destruct (send_email_sent self source to_addresses subject body_text
              body_html cc bcc reply_to)
    as (p & Hp & _ & Hto & Hcc & Hbcc & Hrt & _).
  exists p. split; [exact Hp|]. split; [|split].
  - intros s ->. exact Hto.
  - intros l ->. exact Hto.
  - repeat constructor; apply optional_entry_rules; assumption.
Qed.

Lemma recipient_normalization_witness :
  ∃ p : gmap string value,
    sent (send_email (fixed_client (inr ∅)) (VStr "a@x.com") (VStr "b@x.com")
            (VStr "s") (VStr "t") VNone (VStr "cc@example.com")
            (VList [VStr "b1@x.com"; VStr "b2@x.com"]) (VStr "")).1 = [p]
    ∧ lookup_path (VDict p) ["Destination"; "ToAddresses"]
      = Some (VList [VStr "b@x.com"])
    ∧ lookup_path (VDict p) ["Destination"; "CcAddresses"]
      = Some (VList [VStr "cc@example.com"])
    ∧ lookup_path (VDict p) ["Destination"; "BccAddresses"]
      = Some (VList [VStr "b1@x.com"; VStr "b2@x.com"])
    ∧ lookup_path (VDict p) ["ReplyToAddresses"] = None.
Proof.
  destruct (recipient_normalization (fixed_client (inr ∅)) (VStr "a@x.com")
              (VStr "b@x.com") (VStr "s") (VStr "t") VNone (VStr "cc@example.com")
              (VList [VStr "b1@x.com"; VStr "b2@x.com"]) (VStr ""))
    as (p & Hp & Hto & _ & Hopt).
  exists p. split; [exact Hp|].
  apply Forall_cons in Hopt as [(Hcc & _ & _) Hopt].
  apply Forall_cons in Hopt as [(_ & Hbcc & _) Hopt].
  apply Forall_cons in Hopt as [(_ & _ & Hrt) _].
  split; [apply (Hto "b@x.com"); reflexivity|].
  split; [apply (Hcc "cc@example.com"); [reflexivity | discriminate]|].
  split; [apply (Hbcc [VStr "b1@x.com"; VStr "b2@x.com"]); [reflexivity | discriminate]|].
  apply Hrt. left. reflexivity.
Defined.

(** C1 as stated fails: the empty string given as [cc_addresses],
    [bcc_addresses] or [reply_to_addresses] is a single string, and
    normalization does not produce the one-element list: the request has
    no entry for it, while the same string given as [to_addresses] is
    wrapped. *)
Lemma empty_string_cc_not_wrapped :
  optional_to_list (VStr "") ≠ VList [VStr ""]
  ∧ ∃ p : gmap string value,
      sent (send_email (fixed_client (inr ∅)) (VStr "a@x.com") (VStr "")
              (VStr "s") (VStr "t") VNone (VStr "") (VStr "") (VStr "")).1 = [p]
      ∧ lookup_path (VDict p) ["Destination"; "ToAddresses"] = Some (VList [VStr ""])
      ∧ lookup_path (VDict p) ["Destination"; "CcAddresses"] = None
      ∧ lookup_path (VDict p) ["Destination"; "BccAddresses"] = None
      ∧ lookup_path (VDict p) ["ReplyToAddresses"] = None.
Proof.
  split; [discriminate|].
  eexists. repeat split; reflexivity.
Qed.

(** ** The assembled request *)

(** C4.  With only the required arguments, the request has a [ToAddresses]
    entry and a text body part, and has no [CcAddresses], [BccAddresses],
    [ReplyToAddresses] or [Html] entry. *)
Theorem send_email_required_only (self : SESClient)
    (source to_addresses subject body_text : value) :
  ∃ p : gmap string value,
    sent (send_email self source to_addresses subject body_text
            VNone VNone VNone VNone).1 = [p]
    ∧ lookup_path (VDict p) ["Destination"; "ToAddresses"] = Some (to_list to_addresses)
    ∧ lookup_path (VDict p) ["Message"; "Body"; "Text"]
      = Some (VDict {[ "Data" := body_text ]})
    ∧ lookup_path (VDict p) ["Destination"; "CcAddresses"] = None
    ∧ lookup_path (VDict p) ["Destination"; "BccAddresses"] = None
    ∧ lookup_path (VDict p) ["ReplyToAddresses"] = None
    ∧ lookup_path (VDict p) ["Message"; "Body"; "Html"] = None.
Proof.
  destruct (send_email_sent self source to_addresses subject body_text
              VNone VNone VNone VNone)
    as (p & Hp & _ & Hto & Hcc & Hbcc & Hrt & _ & _ & Htext & Hhtml).
  exists p. simpl in Hcc, Hbcc, Hrt, Hhtml. repeat split; assumption.
Qed.

(** C5 (as amended).  The body of the request always has the text part, and
    has the HTML part if and only if [body_html] is true, that is supplied
    and not empty; then it has both parts. *)
Theorem send_email_body_parts (self : SESClient)
    (source to_addresses subject body_text body_html cc bcc reply_to : value) :
  ∃ p : gmap string value,
    sent (send_email self source to_addresses subject body_text
            body_html cc bcc reply_to).1 = [p]
    ∧ lookup_path (VDict p) ["Message"; "Body"; "Text"]
      = Some (VDict {[ "Data" := body_text ]})
    ∧ lookup_path (VDict p) ["Message"; "Body"; "Html"]
      = (if truthy body_html then Some (VDict {[ "Data" := body_html ]}) else None)
    ∧ (is_Some (lookup_path (VDict p) ["Message"; "Body"; "Html"])
       ↔ truthy body_html = true).
Proof.
  destruct (send_email_sent self source to_addresses subject body_text
              body_html cc bcc reply_to)
    as (p & Hp & _ & _ & _ & _ & _ & _ & _ & Htext & Hhtml).
  exists p. repeat split; try assumption.
  - rewrite Hhtml. destruct (truthy body_html); [reflexivity|].
    intros [x Hx]. discriminate.
  - intros Ht. rewrite Hhtml, Ht. eexists. reflexivity.
Qed.

(** C5 as stated fails: [body_html] is supplied, as the empty string, and
    the body of the request has no HTML part. *)
Lemma empty_body_html_no_html_part :
  VStr "" ≠ VNone
  ∧ ∃ p : gmap string value,
      sent (send_email (fixed_client (inr ∅)) (VStr "a@x.com") (VStr "b@x.com")
              (VStr "s") (VStr "t") (VStr "") VNone VNone VNone).1 = [p]
      ∧ lookup_path (VDict p) ["Message"; "Body"; "Html"] = None.
Proof.
  split; [discriminate|].
  eexists. split; reflexivity.
Qed.

(** C6 (as amended).  [send_email] checks nothing: it submits one request
    for every input, and the request satisfies the invariant exactly when
    the arguments do ([to_addresses] a string or a non-empty list; [source],
    [subject] and [body_text] non-empty strings). *)
Theorem send_email_invariant_of_arguments (self : SESClient)
    (source to_addresses subject body_text body_html cc bcc reply_to : value) :
  ∃ p : gmap string value,
    sent (send_email self source to_addresses subject body_text
            body_html cc bcc reply_to).1 = [p]
    ∧ request_invariant p = arguments_invariant source to_addresses subject body_text.
Proof.
  destruct (send_email_sent self source to_addresses subject body_text
              body_html cc bcc reply_to)
    as (p & Hp & Hsrc & Hto & _ & _ & _ & Hsubj & Htxt & _).
  exists p. split; [exact Hp|].
  unfold request_invariant, arguments_invariant.
  rewrite Hsrc, Hto, Hsubj, Htxt. simpl.
  replace (nonempty_list (to_list to_addresses))
    with (isinstance_str to_addresses || nonempty_list to_addresses);
    [reflexivity|].
  destruct to_addresses; reflexivity.
Qed.

(** C6 as stated fails: [send_email] reaches the remote call with an empty
    list of recipients and empty [source], [subject] and [body_text], and
    the request submitted does not satisfy the invariant. *)
Lemma send_email_submits_empty_request :
  ∃ p : gmap string value,
    sent (send_email (fixed_client (inr ∅)) (VStr "") (VList []) (VStr "")
            (VStr "") VNone VNone VNone VNone).1 = [p]
    ∧ request_invariant p = false.
Proof. eexists. split; reflexivity. Qed.

(** ** Profile resolution *)

Lemma lower_latest_nonempty (p : string) : lower p = "latest" → truthy (VStr p) = true.
Proof. destruct p; [discriminate | reflexivity]. Qed.

Section Resolve.
Context (boto3 : boto3_module) (s : boto_session).
Hypothesis default_session : Session boto3 VNone = inr s.

(** ["latest"], in any letter case, with no profile configured: the
    resolver raises. *)
Lemma resolve_latest_no_profiles (p : string) :
  lower p = "latest" →
  available_profiles s = [] →
  resolve_profile_name boto3 (VStr p)
  = ([CallSession VNone],
     inl (Exn ValueError "No AWS profiles found when trying to use 'latest'")).
Proof.
  intros Hp Hs. unfold resolve_profile_name.
  rewrite (lower_latest_nonempty p Hp). simpl. rewrite Hp. simpl.
  unfold get_latest_profile, get_available_profiles. simpl.
  rewrite default_session, Hs. reflexivity.
Qed.

(** ["latest"] with profiles [ps ++ [pn]]: the resolver returns [pn] when
    [pn] is not the empty name. *)
Lemma resolve_latest_last (p : string) (ps : list string) (pn : string) :
  lower p = "latest" →
  available_profiles s = ps ++ [pn] →
  pn ≠ "" →
  resolve_profile_name boto3 (VStr p) = ([CallSession VNone], inr (VStr pn)).
Proof.
  intros Hp Hs Hpn. unfold resolve_profile_name.
  rewrite (lower_latest_nonempty p Hp). simpl. rewrite Hp. simpl.
  unfold get_latest_profile, get_available_profiles. simpl.
  rewrite default_session, Hs. simpl. rewrite last_snoc.
  destruct ps; simpl; rewrite (nonempty_eqb pn Hpn); reflexivity.
Qed.

(** Constructing an [SESClient] with ["latest"] and no profile configured
    fails in the constructor: no client is made and nothing is sent. *)
Lemma init_latest_no_profiles (p : string) (region_name : value) :
  lower p = "latest" →
  available_profiles s = [] →
  __init__ boto3 (VStr p) region_name
  = ([CallSession VNone], inl (Exn ValueError "No AWS profiles found")).
Proof.
  intros Hp Hs. unfold __init__, _create_session.
  rewrite (lower_latest_nonempty p Hp). simpl. rewrite Hp. simpl.
  rewrite default_session, Hs. reflexivity.
Qed.

(** Constructing an [SESClient] with ["latest"] and profiles [ps ++ [pn]]
    binds the session to [pn], whatever [pn] is. *)
Lemma create_session_latest_last (p : string) (ps : list string) (pn : string) :
  lower p = "latest" →
  available_profiles s = ps ++ [pn] →
  _create_session boto3 (VStr p)
  = ([CallSession VNone; CallSession (VStr pn)],
     match Session boto3 (VStr pn) with
     | inl e => inl e
     | inr s' => inr (VStr pn, s')
     end).
Proof.
  intros Hp Hs. unfold _create_session.
  rewrite (lower_latest_nonempty p Hp). simpl. rewrite Hp. simpl.
  rewrite default_session, Hs. simpl. rewrite last_snoc.
  destruct ps; simpl; destruct (Session boto3 (VStr pn)); reflexivity.
Qed.

End Resolve.

(** C2 (fails on the code).  The profiles are ["default"] and then the empty
    name, a non-empty sequence, and ["latest"] is not resolved to its last
    element: [resolve_profile_name] raises the error of the empty Profile
    Set.  [_create_session], on the same profiles, binds the last element. *)
Theorem resolve_latest_empty_last_name :
  resolve_profile_name (fixed_boto3 ["default"; ""] (inr ∅)) (VStr "latest")
  = ([CallSession VNone],
     inl (Exn ValueError "No AWS profiles found when trying to use 'latest'"))
  ∧ ∃ s' : boto_session,
      _create_session (fixed_boto3 ["default"; ""] (inr ∅)) (VStr "latest")
      = ([CallSession VNone; CallSession (VStr "")], inr (VStr "", s')).
Proof. split; [reflexivity | eexists; reflexivity]. Qed.

(** C3.  [resolve_profile_name] returns [None] for [None] and for the empty
    string, and returns any other string that is not ["latest"] in some
    letter case unchanged; it makes no call, so the configured profiles play
    no part. *)
Theorem resolve_passes_names_through (boto3 : boto3_module) (name : string) :
  resolve_profile_name boto3 VNone = ([], inr VNone)
  ∧ resolve_profile_name boto3 (VStr "") = ([], inr VNone)
  ∧ (name ≠ "" → lower name ≠ "latest" →
     resolve_profile_name boto3 (VStr name) = ([], inr (VStr name))).
Proof.
  repeat split.
  intros Hne Hl. unfold resolve_profile_name. simpl.
  rewrite (nonempty_eqb name Hne). simpl.
  apply String.eqb_neq in Hl. rewrite Hl. reflexivity.
Qed.

Lemma resolve_passes_names_through_witness :
  resolve_profile_name (fixed_boto3 ["default"; "dev"] (inr ∅)) (VStr "custom")
  = ([], inr (VStr "custom")).
Proof.
  apply (resolve_passes_names_through (fixed_boto3 ["default"; "dev"] (inr ∅)) "custom");
    discriminate.
Defined.

(** ** The handler *)

Lemma sent_app (t t' : list call) : sent (t ++ t') = sent t ++ sent t'.
Proof. unfold sent. apply omap_app. Qed.

Lemma create_session_sends_nothing (boto3 : boto3_module) (profile_name : value) :
  sent (_create_session boto3 profile_name).1 = [].
Proof.
  unfold _create_session.
  destruct (truthy profile_name); simpl.
  - destruct profile_name; try reflexivity. simpl.
    destruct (String.eqb (lower s) "latest"); simpl.
    + destruct (Session boto3 VNone) as [e|s0]; simpl; [reflexivity|].
      destruct (available_profiles s0) as [|a l]; [reflexivity|].
      destruct (last (a :: l)) as [p|]; [|reflexivity]. simpl.
      destruct (Session boto3 (VStr p)); reflexivity.
    + destruct (Session boto3 (VStr s)); reflexivity.
  - destruct (Session boto3 VNone); reflexivity.
Qed.

Lemma init_sends_nothing (boto3 : boto3_module) (profile_name region_name : value) :
  sent (__init__ boto3 profile_name region_name).1 = [].
Proof.
  unfold __init__.
  pose proof (create_session_sends_nothing boto3 profile_name) as H.
  destruct (_create_session boto3 profile_name) as [t [e|[p s]]]; simpl in *.
  - exact H.
  - destruct (client s "ses" region_name); simpl;
      rewrite sent_app, H; reflexivity.
Qed.

Section HandlerFacts.
Context (boto3 : boto3_module) (environ : gmap string string)
        (event : gmap string value).

Lemma handler_try_eq :
  handler_try boto3 environ event
  = if negb (required_supplied event) then mret missing_parameters
    else
      ses_client ← handler_client boto3 environ event;
      response ← handler_send ses_client event;
      message_id ← getitem response "MessageId";
      mret {| statusCode := 200;
              body := json_dumps (VDict {[ "message" := VStr "Email sent successfully";
                                           "messageId" := message_id ]}) |}.
Proof. reflexivity. Qed.

(** When a required entry is not true the handler answers 400 and makes no
    call at all. *)
Lemma handler_not_supplied :
  required_supplied event = false →
  handler boto3 environ event = ([], missing_parameters).
Proof.
  intros H. unfold handler. rewrite handler_try_eq, H. reflexivity.
Qed.

(** The handler sends at most one request. *)
Lemma handler_sends_at_most_once :
  List.length (sent (handler boto3 environ event).1) ≤ 1.
Proof.
  unfold handler. rewrite handler_try_eq.
  destruct (required_supplied event); simpl; [|lia].
  pose proof (init_sends_nothing boto3
    (py_or (dict_get event "profile_name") (environ_get environ "AWS_PROFILE"))
    (py_or (dict_get event "region_name") (environ_get environ "AWS_REGION"))) as Hi.
  fold (handler_client boto3 environ event) in Hi.
  destruct (handler_client boto3 environ event) as [t [e|self]]; simpl in *.
  - rewrite Hi. simpl. lia.
  - pose proof (send_email_one_request self (dict_get event "source")
      (dict_get event "to_addresses") (dict_get event "subject")
      (dict_get event "body_text") (dict_get event "body_html")
      (dict_get event "cc_addresses") (dict_get event "bcc_addresses")
      (dict_get event "reply_to_addresses")) as Hs.
    fold (handler_send self event) in Hs.
    destruct (handler_send self event) as [t' [e|r]]; simpl in *.
    + rewrite sent_app, Hi. simpl. lia.
    + unfold getitem. destruct (r !! "MessageId"); simpl;
        rewrite !sent_app, Hi, app_nil_r; simpl; lia.
Qed.

End HandlerFacts.

Section HandlerClaims.
Context (boto3 : boto3_module) (environ : gmap string string)
        (event : gmap string value).

#[local] Arguments handler_client : simpl never.
#[local] Arguments handler_send : simpl never.

(** C7.  When [source], [to_addresses], [subject] or [body_text] is missing
    from the event, the handler returns status 400 with a message that
    contains "Missing required parameters", and it makes no call: no
    [SESClient] is constructed and nothing is sent. *)
Theorem handler_missing_required :
  event !! "source" = None ∨ event !! "to_addresses" = None
  ∨ event !! "subject" = None ∨ event !! "body_text" = None →
  (handler boto3 environ event).1 = []
  ∧ statusCode (handler boto3 environ event).2 = 400%Z
  ∧ ∃ msg : string,
      body_message (handler boto3 environ event).2 = Some (VStr msg)
      ∧ str_in "Missing required parameters" msg = true.
Proof.
  intros H.
  assert (required_supplied event = false) as Hreq.
  { unfold required_supplied, dict_get. simpl.
    destruct H as [H|[H|[H|H]]]; rewrite H; simpl;
      rewrite ?andb_false_r; reflexivity. }
  rewrite (handler_not_supplied boto3 environ event Hreq).
  repeat split. eexists. split; reflexivity.
Qed.

(** C10.  A required entry that is present but empty (the empty string for
    [source], [subject] or [body_text], the empty list for [to_addresses])
    is treated as a missing one: the handler answers as it does for the
    event without that entry, with status 400, "Missing required
    parameters", and no call. *)
Theorem handler_empty_required (k : string) (v : value) :
  (k, v) ∈ empty_required →
  event !! k = Some v →
  handler boto3 environ event = handler boto3 environ (delete k event)
  ∧ (handler boto3 environ event).1 = []
  ∧ statusCode (handler boto3 environ event).2 = 400%Z
  ∧ ∃ msg : string,
      body_message (handler boto3 environ event).2 = Some (VStr msg)
      ∧ str_in "Missing required parameters" msg = true.
Proof.
  intros Hk Hv.
  assert (required_supplied event = false) as Hreq.
  { unfold required_supplied, dict_get, empty_required in *. simpl.
    repeat (apply elem_of_cons in Hk as [Hk|Hk];
            [injection Hk as -> ->; rewrite Hv; simpl;
             rewrite ?andb_false_r; reflexivity|]).
    inversion Hk. }
  assert (required_supplied (delete k event) = false) as Hreq'.
  { unfold required_supplied, dict_get, empty_required in *. simpl.
    repeat (apply elem_of_cons in Hk as [Hk|Hk];
            [injection Hk as -> ->; rewrite lookup_delete_eq; simpl;
             rewrite ?andb_false_r; reflexivity|]).
    inversion Hk. }
  rewrite (handler_not_supplied boto3 environ event Hreq).
  rewrite (handler_not_supplied boto3 environ (delete k event) Hreq').
  repeat split. eexists. split; reflexivity.
Qed.

(** C8.  When every required entry is supplied, the [SESClient] is
    constructed and [send_email] returns a result whose ["MessageId"] is
    [id], the handler returns status 200 with the message "Email sent
    successfully" and [messageId] equal to [id]. *)
Theorem handler_success (self : SESClient) (result : gmap string value) (id : value) :
  required_supplied event = true →
  (handler_client boto3 environ event).2 = inr self →
  (handler_send self event).2 = inr result →
  result !! "MessageId" = Some id →
  (handler boto3 environ event).2
  = {| statusCode := 200;
       body := json_dumps (VDict {[ "message" := VStr "Email sent successfully";
                                    "messageId" := id ]}) |}.
Proof.
  intros Hreq Hinit Hsend Hid.
  unfold handler. rewrite handler_try_eq, Hreq.
  change (negb true) with false. cbv iota.
  destruct (handler_client boto3 environ event) as [t [e|self']];
    simpl in Hinit; [discriminate|].
  injection Hinit as ->. simpl.
  destruct (handler_send self event) as [t' [e|r]];
    simpl in Hsend; [discriminate|].
  injection Hsend as ->. simpl.
  unfold getitem. rewrite Hid. reflexivity.
Qed.

(** C9.  When every required entry is supplied and the construction of the
    [SESClient] or [send_email] raises [e], the handler returns status 500
    with the message "Error sending email: " followed by [str(e)], which
    contains both "Error sending email" and [str(e)]; at most one request
    was sent. *)
Theorem handler_failure (e : exn) :
  required_supplied event = true →
  (handler_client boto3 environ event).2 = inl e
  ∨ (∃ self : SESClient,
       (handler_client boto3 environ event).2 = inr self
       ∧ (handler_send self event).2 = inl e) →
  (handler boto3 environ event).2
  = {| statusCode := 500;
       body := json_dumps (VDict {[ "message" :=
         VStr ("Error sending email: " +:+ str e) ]}) |}
  ∧ str_in "Error sending email" ("Error sending email: " +:+ str e) = true
  ∧ str_in (str e) ("Error sending email: " +:+ str e) = true
  ∧ List.length (sent (handler boto3 environ event).1) ≤ 1.
Proof.
  intros Hreq H. split; [|split; [|split]].
  - unfold handler. rewrite handler_try_eq, Hreq.
    change (negb true) with false. cbv iota.
    destruct H as [Hinit|(self & Hinit & Hsend)].
    + destruct (handler_client boto3 environ event) as [t [e'|self']];
        simpl in Hinit; [|discriminate].
      injection Hinit as ->. reflexivity.
    + destruct (handler_client boto3 environ event) as [t [e'|self']];
        simpl in Hinit; [discriminate|].
      injection Hinit as ->. simpl.
      destruct (handler_send self event) as [t' [e'|r]];
        simpl in Hsend; [|discriminate].
      injection Hsend as ->. reflexivity.
  - exact (str_in_app "" "Error sending email" (": " +:+ str e)).
  - apply str_in_app_r.
  - apply handler_sends_at_most_once.
Qed.

End HandlerClaims.

(** ** The scenarios of the specification *)

Lemma handler_missing_required_witness :
  (handler (fixed_boto3 ["default"] (inr ∅)) ∅ (delete "body_text" minimal_event)).1 = []
  ∧ statusCode (handler (fixed_boto3 ["default"] (inr ∅)) ∅
                  (delete "body_text" minimal_event)).2 = 400%Z
  ∧ ∃ msg : string,
      body_message (handler (fixed_boto3 ["default"] (inr ∅)) ∅
                      (delete "body_text" minimal_event)).2 = Some (VStr msg)
      ∧ str_in "Missing required parameters" msg = true.
Proof.
  apply (handler_missing_required (fixed_boto3 ["default"] (inr ∅)) ∅
           (delete "body_text" minimal_event)).
  right. right. right. reflexivity.
Defined.

Lemma handler_empty_required_witness :
  handler (fixed_boto3 ["default"] (inr ∅)) ∅ (<["body_text" := VStr ""]> minimal_event)
  = handler (fixed_boto3 ["default"] (inr ∅)) ∅
      (delete "body_text" (<["body_text" := VStr ""]> minimal_event))
  ∧ (handler (fixed_boto3 ["default"] (inr ∅)) ∅
       (<["body_text" := VStr ""]> minimal_event)).1 = []
  ∧ statusCode (handler (fixed_boto3 ["default"] (inr ∅)) ∅
                  (<["body_text" := VStr ""]> minimal_event)).2 = 400%Z
  ∧ ∃ msg : string,
      body_message (handler (fixed_boto3 ["default"] (inr ∅)) ∅
                      (<["body_text" := VStr ""]> minimal_event)).2 = Some (VStr msg)
      ∧ str_in "Missing required parameters" msg = true.
Proof.
  apply (handler_empty_required (fixed_boto3 ["default"] (inr ∅)) ∅
           (<["body_text" := VStr ""]> minimal_event) "body_text" (VStr "")).
  - unfold empty_required. do 3 apply list_elem_of_further. apply list_elem_of_here.
  - reflexivity.
Defined.

Lemma handler_success_witness :
  (handler (fixed_boto3 ["default"] (inr {[ "MessageId" := VStr "0100-01" ]}))
     ∅ minimal_event).2
  = {| statusCode := 200;
       body := json_dumps (VDict {[ "message" := VStr "Email sent successfully";
                                    "messageId" := VStr "0100-01" ]}) |}.
Proof.
  eapply (handler_success
            (fixed_boto3 ["default"] (inr {[ "MessageId" := VStr "0100-01" ]}))
            ∅ minimal_event);
    reflexivity.
Defined.

Lemma handler_failure_witness :
  (handler (fixed_boto3 ["default"]
              (inl (Exn ClientError "Email address not verified")))
     ∅ minimal_event).2
  = {| statusCode := 500;
       body := json_dumps (VDict {[ "message" :=
         VStr "Error sending email: Email address not verified" ]}) |}
  ∧ str_in "Error sending email"
      "Error sending email: Email address not verified" = true
  ∧ str_in "Email address not verified"
      "Error sending email: Email address not verified" = true
  ∧ List.length (sent (handler (fixed_boto3 ["default"]
                                  (inl (Exn ClientError "Email address not verified")))
                         ∅ minimal_event).1) ≤ 1.
Proof.
  apply (handler_failure
           (fixed_boto3 ["default"] (inl (Exn ClientError "Email address not verified")))
           ∅ minimal_event (Exn ClientError "Email address not verified")).
  - reflexivity.
  - right. eexists. split; reflexivity.
Defined.

(** The sentinel is compared without regard to letter case. *)
Example lower_mixed_case : lower "LaTeSt" = "latest".
Proof. reflexivity. Qed.

(** The profiles of the repository's tests: ["latest"] is ["prod"]. *)
Example resolve_latest_of_three :
  resolve_profile_name (fixed_boto3 ["default"; "dev"; "prod"] (inr ∅)) (VStr "latest")
  = ([CallSession VNone], inr (VStr "prod")).
Proof. reflexivity. Qed.

(** Every optional argument given as a single address: each is wrapped, and
    the request has all its entries. *)
Example send_email_single_addresses :
  sent (send_email (fixed_client (inr ∅)) (VStr "sender@example.com")
          (VStr "recipient@example.com") (VStr "Test Subject") (VStr "Test Body")
          (VStr "<h1>Test</h1>") (VStr "cc@example.com") (VStr "bcc@example.com")
          (VStr "reply@example.com")).1
  = [ {[ "Source" := VStr "sender@example.com";
         "Destination" := VDict
           {[ "ToAddresses" := VList [VStr "recipient@example.com"];
              "CcAddresses" := VList [VStr "cc@example.com"];
              "BccAddresses" := VList [VStr "bcc@example.com"] ]};
         "Message" := VDict
           {[ "Subject" := VDict {[ "Data" := VStr "Test Subject" ]};
              "Body" := VDict
                {[ "Text" := VDict {[ "Data" := VStr "Test Body" ]};
                   "Html" := VDict {[ "Data" := VStr "<h1>Test</h1>" ]} ]} ]};
         "ReplyToAddresses" := VList [VStr "reply@example.com"] ]} ].
Proof. reflexivity. Qed.

(** A [ClientError] of the remote call is printed by [send_email] and raised
    again; the handler turns it into the 500 response. *)
Example handler_client_error_trace :
  (handler (fixed_boto3 ["default"] (inl (Exn ClientError "Email address not verified")))
     ∅ minimal_event).1
  = [CallSession VNone; CallClient "ses" VNone;
     CallSendEmail
       {[ "Source" := VStr "a@x.com";
          "Destination" := VDict {[ "ToAddresses" := VList [VStr "b@x.com"] ]};
          "Message" := VDict
            {[ "Subject" := VDict {[ "Data" := VStr "s" ]};
               "Body" := VDict {[ "Text" := VDict {[ "Data" := VStr "t" ]} ]} ]} ]};
     CallPrint "Error sending email: Email address not verified"].
Proof. reflexivity. Qed.

(** The handler asked for ["latest"] with no profile configured: the
    failure is that of the constructor, and nothing is sent. *)
Example handler_latest_no_profiles :
  handler (fixed_boto3 [] (inr ∅)) ∅ (<["profile_name" := VStr "Latest"]> minimal_event)
  = ([CallSession VNone],
     {| statusCode := 500;
        body := json_dumps (VDict {[ "message" :=
          VStr "Error sending email: No AWS profiles found" ]}) |}).
Proof. reflexivity. Qed.

(** ** The invariant at the event entry *)

Section HandlerInvariant.
Context (boto3 : boto3_module) (environ : gmap string string)
        (event : gmap string value).

#[local] Arguments handler_client : simpl never.
#[local] Arguments handler_send : simpl never.

(** A request sent by the handler is the request of its call of
    [send_email], made after the test of the required entries. *)
Lemma handler_sent_request (p : gmap string value) :
  p ∈ sent (handler boto3 environ event).1 →
  required_supplied event = true
  ∧ ∃ self : SESClient, sent (handler_send self event).1 = [p].
Proof.
  unfold handler. rewrite handler_try_eq.
  destruct (required_supplied event); simpl; [|intros H; inversion H].
  intros H. split; [reflexivity|].
  pose proof (init_sends_nothing boto3
    (py_or (dict_get event "profile_name") (environ_get environ "AWS_PROFILE"))
    (py_or (dict_get event "region_name") (environ_get environ "AWS_REGION"))) as Hi.
  fold (handler_client boto3 environ event) in Hi.
  destruct (handler_client boto3 environ event) as [t [e|self]]; simpl in *.
  { rewrite Hi in H. inversion H. }
  exists self.
  destruct (send_email_sent self (dict_get event "source")
      (dict_get event "to_addresses") (dict_get event "subject")
      (dict_get event "body_text") (dict_get event "body_html")
      (dict_get event "cc_addresses") (dict_get event "bcc_addresses")
      (dict_get event "reply_to_addresses")) as (q & Hq & _).
  fold (handler_send self event) in Hq.
  assert (sent (t ++ (handler_send self event).1) = [q]) as Hall
    by (rewrite sent_app, Hi, Hq; reflexivity).
  assert (p ∈ sent (t ++ (handler_send self event).1)) as Hp.
  { destruct (handler_send self event) as [t' [e|r]]; simpl in *; [exact H|].
    unfold getitem in H. destruct (r !! "MessageId"); simpl in H;
      rewrite ?app_nil_r in H; exact H. }
  rewrite Hall in Hp. apply list_elem_of_singleton in Hp. subst q. exact Hq.
Qed.

(** X19.  With the entries of the types the handler documents, every
    request it sends satisfies the invariant: the test of line 51 has
    excluded the empty values. *)
Lemma handler_request_invariant (p : gmap string value) :
  p ∈ sent (handler boto3 environ event).1 →
  isinstance_str (dict_get event "source") = true →
  isinstance_str (dict_get event "to_addresses")
  || isinstance_list (dict_get event "to_addresses") = true →
  isinstance_str (dict_get event "subject") = true →
  isinstance_str (dict_get event "body_text") = true →
  request_invariant p = true.
Proof.
  intros Hp Hsrc Hto Hsubj Htxt.
  apply handler_sent_request in Hp as (Hreq & self & Hsent).
  unfold handler_send in Hsent.
  destruct (send_email_sent self (dict_get event "source")
      (dict_get event "to_addresses") (dict_get event "subject")
      (dict_get event "body_text") (dict_get event "body_html")
      (dict_get event "cc_addresses") (dict_get event "bcc_addresses")
      (dict_get event "reply_to_addresses"))
    as (q & Hq & Hs & Ht & _ & _ & _ & Hsu & Hb & _).
  rewrite Hsent in Hq. injection Hq as <-.
  unfold request_invariant. rewrite Hs, Ht, Hsu, Hb. cbn [from_option].
  unfold required_supplied in Hreq. cbn [forallb] in Hreq.
  apply andb_true_iff in Hreq as [H1 Hreq].
  apply andb_true_iff in Hreq as [H2 Hreq].
  apply andb_true_iff in Hreq as [H3 Hreq].
  apply andb_true_iff in Hreq as [H4 _].
  rewrite (truthy_to_list_nonempty _ Hto H2).
  rewrite (truthy_str_nonempty _ Hsrc H1).
  rewrite (truthy_str_nonempty _ Hsubj H3).
  rewrite (truthy_str_nonempty _ Htxt H4).
  reflexivity.
Qed.

End HandlerInvariant.

(** * Further properties of the code *)

(** ** profile_manager.py *)

Section ProfileManagerFacts.
Context (boto3 : boto3_module).

Lemma get_latest_profile_eq :
  get_latest_profile boto3
  = ([CallSession VNone],
     match Session boto3 VNone with
     | inl e => inl e
     | inr s => inr (from_option VStr VNone (last (available_profiles s)))
     end).
Proof.
  unfold get_latest_profile, get_available_profiles. simpl.
  destruct (Session boto3 VNone) as [e|s]; [reflexivity|]. simpl.
  destruct (available_profiles s) as [|a l] eqn:E; [reflexivity|].
  destruct (last (a :: l)) as [p|] eqn:El; [reflexivity|].
  apply last_None in El. discriminate.
Qed.

(** X1.  [get_latest_profile] asks for the default session once; it returns
    [None] when no profile is configured and the last profile otherwise,
    and the only exception it can raise is that of the session. *)
Theorem get_latest_profile_result :
  get_latest_profile boto3
  = ([CallSession VNone],
     match Session boto3 VNone with
     | inl e => inl e
     | inr s => inr (from_option VStr VNone (last (available_profiles s)))
     end).
Proof. exact get_latest_profile_eq. Qed.

Lemma validate_profile_latest_eq (p : string) :
  lower p = "latest" →
  validate_profile boto3 (VStr p)
  = ([CallSession VNone],
     match Session boto3 VNone with
     | inl e => inl e
     | inr s => inr (bool_decide (available_profiles s ≠ []))
     end).
Proof.
  intros Hp. unfold validate_profile, get_available_profiles. simpl.
  rewrite Hp. simpl.
  destruct (Session boto3 VNone) as [e|s]; [reflexivity|]. simpl.
  destruct (available_profiles s); reflexivity.
Qed.

(** X2.  [validate_profile] of ["latest"], in any letter case, is whether a
    profile is configured; only the default session is asked for, none is
    bound to a name. *)
Theorem validate_profile_latest (p : string) :
  lower p = "latest" →
  validate_profile boto3 (VStr p)
  = ([CallSession VNone],
     match Session boto3 VNone with
     | inl e => inl e
     | inr s => inr (bool_decide (available_profiles s ≠ []))
     end).
Proof. exact (validate_profile_latest_eq p). Qed.

(** X3.  [validate_profile] of any other name binds a session to that name:
    it is [True] when that succeeds, [False] when the session raises
    [ProfileNotFound], and every other exception is raised to the caller. *)
Theorem validate_profile_named (p : string) :
  lower p ≠ "latest" →
  validate_profile boto3 (VStr p)
  = ([CallSession (VStr p)],
     match Session boto3 (VStr p) with
     | inr _ => inr true
     | inl e =>
         match class_of e with
         | ProfileNotFound => inr false
         | _ => inl e
         end
     end).
Proof.
  intros Hp. apply String.eqb_neq in Hp.
  unfold validate_profile. simpl. rewrite Hp. simpl.
  destruct (Session boto3 (VStr p)) as [e|s]; [|reflexivity]. simpl.
  destruct (class_of e); reflexivity.
Qed.

(** X4.  When [resolve_profile_name] resolves ["latest"] to a profile,
    [validate_profile] of ["latest"] is [True]. *)
Theorem resolve_latest_validates (p : string) (t : list call) (v : value) :
  lower p = "latest" →
  resolve_profile_name boto3 (VStr p) = (t, inr v) →
  (validate_profile boto3 (VStr p)).2 = inr true.
Proof.
  intros Hp Hr. rewrite (validate_profile_latest_eq p Hp). simpl.
  unfold resolve_profile_name in Hr.
  rewrite (lower_latest_nonempty p Hp) in Hr. simpl in Hr.
  rewrite Hp in Hr. simpl in Hr.
  rewrite get_latest_profile_eq in Hr. simpl in Hr.
  destruct (Session boto3 VNone) as [e|s]; [discriminate|].
  destruct (available_profiles s) as [|a l]; [discriminate|]. reflexivity.
Qed.

(** X5.  Resolution is idempotent: a value that [resolve_profile_name]
    returns is resolved to itself. *)
Theorem resolve_profile_name_idempotent (profile_name : value) (t : list call) (v : value) :
  resolve_profile_name boto3 profile_name = (t, inr v) →
  (resolve_profile_name boto3 v).2 = inr v.
Proof.
  unfold resolve_profile_name at 1.
  destruct (truthy profile_name) eqn:Ht; simpl.
  2:{ intros [= <- <-]. reflexivity. }
  destruct profile_name as [| | |s| |]; try discriminate. simpl.
  destruct (String.eqb (lower s) "latest") eqn:Hs; simpl.
  - rewrite get_latest_profile_eq. simpl.
    destruct (Session boto3 VNone) as [e|s0] eqn:Hd; [discriminate|]. simpl.
    destruct (last (available_profiles s0)) as [pn|] eqn:Hl; simpl; [|discriminate].
    destruct (String.eqb pn "") eqn:Hpn; simpl; [discriminate|].
    intros [= <- <-].
    unfold resolve_profile_name. simpl. rewrite Hpn. simpl.
    destruct (String.eqb (lower pn) "latest"); simpl; [|reflexivity].
    rewrite get_latest_profile_eq. simpl. rewrite Hd. simpl.
    rewrite Hl. simpl. rewrite Hpn. reflexivity.
  - intros [= <- <-].
    unfold resolve_profile_name. rewrite Ht. simpl. rewrite Hs. reflexivity.
Qed.


(** X7.  The two resolutions of ["latest"] agree where the resolver
    succeeds: the session of [_create_session] is bound to the name that
    [resolve_profile_name] returns. *)
Theorem create_session_binds_resolved (p : string) (t : list call) (v : value) :
  lower p = "latest" →
  resolve_profile_name boto3 (VStr p) = (t, inr v) →
  _create_session boto3 (VStr p)
  = ([CallSession VNone; CallSession v],
     match Session boto3 v with
     | inl e => inl e
     | inr s' => inr (v, s')
     end).
Proof.
  intros Hp Hr.
  unfold resolve_profile_name in Hr.
  rewrite (lower_latest_nonempty p Hp) in Hr. simpl in Hr.
  rewrite Hp in Hr. simpl in Hr.
  rewrite get_latest_profile_eq in Hr. simpl in Hr.
  destruct (Session boto3 VNone) as [e|s] eqn:Hd; [discriminate|]. simpl in Hr.
  destruct (last (available_profiles s)) as [pn|] eqn:Hl; simpl in Hr; [|discriminate].
  destruct (String.eqb pn ""); simpl in Hr; [discriminate|].
  injection Hr as <- <-.
  apply last_Some in Hl as [ps Hps].
  apply (create_session_latest_last boto3 s Hd p ps pn Hp Hps).
Qed.

End ProfileManagerFacts.

(** ** ses_client.py: construction *)

Section SESClientFacts.
Context (boto3 : boto3_module).



(** X9.  A profile given by name (not ["latest"]) is bound as given, with
    no look at the configured profiles; when the binding raises, the
    constructor raises that exception and creates no client. *)
Theorem init_named_profile (p : string) (region_name : value) :
  p ≠ "" → lower p ≠ "latest" →
  __init__ boto3 (VStr p) region_name
  = match Session boto3 (VStr p) with
    | inl e => ([CallSession (VStr p)], inl e)
    | inr s =>
        ([CallSession (VStr p); CallClient "ses" region_name],
         match client s "ses" region_name with
         | inl e => inl e
         | inr c => inr {| self_profile_name := VStr p;
                           self_region_name := region_name;
                           self_session := s;
                           self_client := c |}
         end)
    end.
Proof.
  intros Hne Hl. apply String.eqb_neq in Hl.
  unfold __init__, _create_session. simpl.
  rewrite (nonempty_eqb p Hne). simpl. rewrite Hl. simpl.
  destruct (Session boto3 (VStr p)) as [e|s]; [reflexivity|]. simpl.
  destruct (client s "ses" region_name); reflexivity.
Qed.

End SESClientFacts.

(** ** ses_client.py: send_email *)

(** X10.  [send_email] hands the answer of the remote call on: its result,
    or its exception unchanged.  It makes that one call, and prints one
    line, after the call, exactly when the exception is a [ClientError]. *)
Theorem send_email_passes_answer (self : SESClient)
    (source to_addresses subject body_text body_html cc bcc reply_to : value) :
  ∃ p : gmap string value,
    send_email self source to_addresses subject body_text body_html cc bcc reply_to
    = (CallSendEmail p ::
         match api_send_email (self_client self) p with
         | inl e =>
             if is_ClientError e
             then [CallPrint ("Error sending email: " +:+ str e)] else []
         | inr _ => []
         end,
       api_send_email (self_client self) p).
Proof.
  unfold send_email.
  match goal with
  | |- context [extern (CallSendEmail ?q) _] => set (p := q)
  end.
  exists p. unfold try_except, extern.
  destruct (api_send_email (self_client self) p) as [e|r]; [|reflexivity].
  destruct (is_ClientError e); reflexivity.
Qed.

(** X11.  [CcAddresses], [BccAddresses] and [ReplyToAddresses] are in the
    request exactly when the argument is true: [None], the empty string and
    the empty list leave the entry out; otherwise the entry is the argument,
    wrapped in a list when it is a string. *)
Theorem send_email_optional_recipients (self : SESClient)
    (source to_addresses subject body_text body_html cc bcc reply_to : value) :
  ∃ p : gmap string value,
    sent (send_email self source to_addresses subject body_text
            body_html cc bcc reply_to).1 = [p]
    ∧ lookup_path (VDict p) ["Destination"; "CcAddresses"]
      = (if truthy cc then Some (optional_to_list cc) else None)
    ∧ lookup_path (VDict p) ["Destination"; "BccAddresses"]
      = (if truthy bcc then Some (optional_to_list bcc) else None)
    ∧ lookup_path (VDict p) ["ReplyToAddresses"]
      = (if truthy reply_to then Some (optional_to_list reply_to) else None).
Proof.
  destruct (send_email_sent self source to_addresses subject body_text
              body_html cc bcc reply_to)
    as (p & Hp & _ & _ & Hcc & Hbcc & Hrt & _).
  exists p. repeat split; assumption.
Qed.

(** X12.  The request has the entries [Source], [Destination] and [Message],
    and [ReplyToAddresses] when it is given, and no other; [Destination]
    has [ToAddresses], [CcAddresses] and [BccAddresses] when given, and no
    other. *)
Theorem send_email_request_keys (self : SESClient)
    (source to_addresses subject body_text body_html cc bcc reply_to : value) :
  ∃ (p d : gmap string value),
    sent (send_email self source to_addresses subject body_text
            body_html cc bcc reply_to).1 = [p]
    ∧ dom p = {[ "Source"; "Destination"; "Message" ]}
              ∪ (if truthy reply_to then {[ "ReplyToAddresses" ]} else ∅)
    ∧ p !! "Destination" = Some (VDict d)
    ∧ dom d = {[ "ToAddresses" ]}
              ∪ (if truthy cc then {[ "CcAddresses" ]} else ∅)
              ∪ (if truthy bcc then {[ "BccAddresses" ]} else ∅).
Proof.
  unfold send_email. rewrite !truthy_optional_to_list.
  match goal with
  | |- context [extern (CallSendEmail ?q) _] => set (p := q)
  end.
  match goal with
  | p := context [<["Destination" := VDict ?q]> _] |- _ => set (d := q) in p
  end.
  exists p, d. split; [|split; [|split]].
  - unfold try_except, extern.
    destruct (api_send_email (self_client self) p) as [e|r]; [|reflexivity].
    destruct (is_ClientError e); reflexivity.
  - subst p. destruct (truthy reply_to);
      rewrite ?dom_insert_L, ?dom_singleton_L; set_solver.
  - subst p. destruct (truthy reply_to); reflexivity.
  - subst d. destruct (truthy cc), (truthy bcc);
      rewrite ?dom_insert_L, ?dom_singleton_L; set_solver.
Qed.

(** ** lambda_handler.py *)

Lemma lookup_path_app (v : value) (path path' : list string) :
  lookup_path v (path ++ path') = lookup_path v path ≫= λ v', lookup_path v' path'.
Proof.
  revert v. induction path as [|k path IH]; intros v; simpl; [reflexivity|].
  destruct v; try reflexivity.
  destruct (d !! k) as [w|]; simpl; [apply IH | reflexivity].
Qed.

Section HandlerMore.
Context (boto3 : boto3_module).

#[local] Arguments handler_client : simpl never.
#[local] Arguments handler_send : simpl never.

(** X13.  The handler reads the environment only for [AWS_PROFILE] and
    [AWS_REGION], and each only when the event has no true entry for it: an
    entry of the event takes precedence over the environment. *)
Theorem handler_environment (environ environ' : gmap string string)
    (event : gmap string value) :
  truthy (dict_get event "profile_name") = true
  ∨ environ !! "AWS_PROFILE" = environ' !! "AWS_PROFILE" →
  truthy (dict_get event "region_name") = true
  ∨ environ !! "AWS_REGION" = environ' !! "AWS_REGION" →
  handler boto3 environ event = handler boto3 environ' event.
Proof.
  intros Hp Hr.
  assert (py_or (dict_get event "profile_name") (environ_get environ "AWS_PROFILE")
          = py_or (dict_get event "profile_name") (environ_get environ' "AWS_PROFILE")) as Ep.
  { unfold py_or, environ_get. destruct Hp as [->| ->]; reflexivity. }
  assert (py_or (dict_get event "region_name") (environ_get environ "AWS_REGION")
          = py_or (dict_get event "region_name") (environ_get environ' "AWS_REGION")) as Er.
  { unfold py_or, environ_get. destruct Hr as [->| ->]; reflexivity. }
  unfold handler, handler_try. rewrite Ep, Er. reflexivity.
Qed.

(** X14.  A profile or region taken from the environment acts as if the
    event had supplied it. *)
Theorem handler_environment_default (environ : gmap string string)
    (event : gmap string value) (k var q : string) :
  (k, var) ∈ [("profile_name", "AWS_PROFILE"); ("region_name", "AWS_REGION")] →
  truthy (dict_get event k) = false →
  environ !! var = Some q →
  handler boto3 environ event = handler boto3 environ (<[k := VStr q]> event).
Proof.
  intros Hk Ht Hq.
  apply elem_of_cons in Hk as [Hk|Hk]; [|apply list_elem_of_singleton in Hk];
    injection Hk as -> ->;
    unfold handler, handler_try, dict_get in *;
    rewrite lookup_insert_eq;
    rewrite !lookup_insert_ne by discriminate;
    unfold py_or, environ_get; rewrite Ht, Hq;
    change (default VNone (Some (VStr q))) with (VStr q);
    destruct (truthy (VStr q)); reflexivity.
Qed.

(** X15.  When the email is sent but the result of the remote call has no
    ["MessageId"], the handler answers 500 with the text of the [KeyError],
    although one request was sent. *)
Theorem handler_no_message_id (environ : gmap string string)
    (event : gmap string value) (self : SESClient) (result : gmap string value) :
  required_supplied event = true →
  (handler_client boto3 environ event).2 = inr self →
  (handler_send self event).2 = inr result →
  result !! "MessageId" = None →
  (handler boto3 environ event).2
  = {| statusCode := 500;
       body := json_dumps (VDict {[ "message" :=
         VStr "Error sending email: 'MessageId'" ]}) |}
  ∧ List.length (sent (handler boto3 environ event).1) = 1.
Proof.
  intros Hreq Hinit Hsend Hid.
  unfold handler. rewrite handler_try_eq, Hreq.
  change (negb true) with false. cbv iota.
  pose proof (init_sends_nothing boto3
    (py_or (dict_get event "profile_name") (environ_get environ "AWS_PROFILE"))
    (py_or (dict_get event "region_name") (environ_get environ "AWS_REGION"))) as Hi.
  fold (handler_client boto3 environ event) in Hi.
  destruct (handler_client boto3 environ event) as [t [e|self']];
    simpl in Hinit; [discriminate|].
  injection Hinit as ->. simpl in *.
  pose proof (send_email_one_request self (dict_get event "source")
    (dict_get event "to_addresses") (dict_get event "subject")
    (dict_get event "body_text") (dict_get event "body_html")
    (dict_get event "cc_addresses") (dict_get event "bcc_addresses")
    (dict_get event "reply_to_addresses")) as Hs.
  fold (handler_send self event) in Hs.
  destruct (handler_send self event) as [t' [e|r]];
    simpl in Hsend; [discriminate|].
  injection Hsend as ->. simpl in *.
  unfold getitem. rewrite Hid. simpl. split; [reflexivity|].
  rewrite !sent_app, Hi, app_nil_r. simpl. exact Hs.
Qed.

(** X16.  The status of the handler's response is 200, 400 or 500; it is
    400 exactly when a required entry is not supplied, and a response of
    status 200 means that exactly one request was sent. *)
Theorem handler_status (environ : gmap string string) (event : gmap string value) :
  statusCode (handler boto3 environ event).2 ∈ [200%Z; 400%Z; 500%Z]
  ∧ (statusCode (handler boto3 environ event).2 = 400%Z
     ↔ required_supplied event = false)
  ∧ (statusCode (handler boto3 environ event).2 = 200%Z
     → List.length (sent (handler boto3 environ event).1) = 1).
Proof.
  unfold handler. rewrite handler_try_eq.
  destruct (required_supplied event); simpl.
  2:{ split; [set_solver|]. split; [tauto | discriminate]. }
  pose proof (init_sends_nothing boto3
    (py_or (dict_get event "profile_name") (environ_get environ "AWS_PROFILE"))
    (py_or (dict_get event "region_name") (environ_get environ "AWS_REGION"))) as Hi.
  fold (handler_client boto3 environ event) in Hi.
  destruct (handler_client boto3 environ event) as [t [e|self]]; simpl in *.
  { split; [set_solver|]. split; [split; discriminate | discriminate]. }
  pose proof (send_email_one_request self (dict_get event "source")
    (dict_get event "to_addresses") (dict_get event "subject")
    (dict_get event "body_text") (dict_get event "body_html")
    (dict_get event "cc_addresses") (dict_get event "bcc_addresses")
    (dict_get event "reply_to_addresses")) as Hs.
  fold (handler_send self event) in Hs.
  destruct (handler_send self event) as [t' [e|r]]; simpl in *.
  { split; [set_solver|]. split; [split; discriminate | discriminate]. }
  unfold getitem. destruct (r !! "MessageId"); simpl.
  - split; [set_solver|]. split; [split; discriminate|].
    intros _. rewrite !sent_app, Hi, app_nil_r. simpl. exact Hs.
  - split; [set_solver|]. split; [split; discriminate | discriminate].
Qed.

(** X17.  The request that the handler sends holds the entries of the
    event: [source], [subject] and [body_text] as they are, [to_addresses]
    normalized, and each optional entry when it is true. *)
Theorem handler_request_of_event (environ : gmap string string)
    (event p : gmap string value) :
  p ∈ sent (handler boto3 environ event).1 →
  lookup_path (VDict p) ["Source"] = Some (dict_get event "source")
  ∧ lookup_path (VDict p) ["Destination"; "ToAddresses"]
    = Some (to_list (dict_get event "to_addresses"))
  ∧ lookup_path (VDict p) ["Message"; "Subject"; "Data"]
    = Some (dict_get event "subject")
  ∧ lookup_path (VDict p) ["Message"; "Body"; "Text"; "Data"]
    = Some (dict_get event "body_text")
  ∧ lookup_path (VDict p) ["Message"; "Body"; "Html"; "Data"]
    = (if truthy (dict_get event "body_html")
       then Some (dict_get event "body_html") else None)
  ∧ lookup_path (VDict p) ["Destination"; "CcAddresses"]
    = (if truthy (dict_get event "cc_addresses")
       then Some (optional_to_list (dict_get event "cc_addresses")) else None)
  ∧ lookup_path (VDict p) ["Destination"; "BccAddresses"]
    = (if truthy (dict_get event "bcc_addresses")
       then Some (optional_to_list (dict_get event "bcc_addresses")) else None)
  ∧ lookup_path (VDict p) ["ReplyToAddresses"]
    = (if truthy (dict_get event "reply_to_addresses")
       then Some (optional_to_list (dict_get event "reply_to_addresses")) else None).
Proof.
  intros Hp.
  apply handler_sent_request in Hp as (_ & self & Hsent).
  unfold handler_send in Hsent.
  destruct (send_email_sent self (dict_get event "source")
      (dict_get event "to_addresses") (dict_get event "subject")
      (dict_get event "body_text") (dict_get event "body_html")
      (dict_get event "cc_addresses") (dict_get event "bcc_addresses")
      (dict_get event "reply_to_addresses"))
    as (q & Hq & Hs & Ht & Hcc & Hbcc & Hrt & Hsu & Hb & _ & Hh).
  rewrite Hsent in Hq. injection Hq as <-.
  repeat split; try assumption.
  change ["Message"; "Body"; "Html"; "Data"]
    with (["Message"; "Body"; "Html"] ++ ["Data"]).
  rewrite lookup_path_app, Hh. destruct (truthy (dict_get event "body_html")); reflexivity.
Qed.

(** X18.  The handler reads ten keys of the event and no other: an entry
    under any other key changes neither the calls nor the response. *)
Theorem handler_ignores_other_keys (environ : gmap string string)
    (event : gmap string value) (k : string) (v : value) :
  k ∉ event_keys →
  handler boto3 environ (<[k := v]> event) = handler boto3 environ event.
Proof.
  intros Hk. unfold event_keys in Hk.
  repeat (apply not_elem_of_cons in Hk as [? Hk]).
  unfold handler, handler_try, dict_get.
  rewrite !lookup_insert_ne by congruence. reflexivity.
Qed.

End HandlerMore.

Lemma handler_request_invariant_witness :
  Forall (λ p, request_invariant p = true)
    (sent (handler (fixed_boto3 ["default"] (inr {[ "MessageId" := VStr "0100-01" ]}))
             ∅ minimal_event).1).
Proof.
  apply Forall_forall. intros p Hp.
  apply (handler_request_invariant
           (fixed_boto3 ["default"] (inr {[ "MessageId" := VStr "0100-01" ]}))
           ∅ minimal_event p Hp); reflexivity.
Defined.

(** ** ses_client.py: the other operations *)

Section SESClientOperationsFacts.
Context (operations : ses_api → ses_operations) (self : SESClient).

(** X20.  [verify_email_identity], [get_send_quota] and
    [get_send_statistics] make one remote call and hand its answer on: the
    result as it is, or the exception unchanged, after printing one line
    when it is a [ClientError]. *)
Theorem operations_pass_answer (email_address : value) :
  verify_email_identity operations self email_address
  = (CallVerifyEmailIdentity email_address ::
       printed "Error verifying email identity: "
         (api_verify_email_identity (operations (self_client self)) email_address),
     outcome_of (api_verify_email_identity (operations (self_client self)) email_address))
  ∧ get_send_quota operations self
    = (CallGetSendQuota ::
         printed "Error getting send quota: "
           (api_get_send_quota (operations (self_client self))),
       outcome_of (api_get_send_quota (operations (self_client self))))
  ∧ get_send_statistics operations self
    = (CallGetSendStatistics ::
         printed "Error getting send statistics: "
           (api_get_send_statistics (operations (self_client self))),
       outcome_of (api_get_send_statistics (operations (self_client self)))).
Proof.
  unfold verify_email_identity, get_send_quota, get_send_statistics,
    try_catch, remote, printed.
  repeat split.
  - destruct (api_verify_email_identity _ _) as [e|r]; [|reflexivity].
    simpl. destruct (is_ClientError e); reflexivity.
  - destruct (api_get_send_quota _) as [e|r]; [|reflexivity].
    simpl. destruct (is_ClientError e); reflexivity.
  - destruct (api_get_send_statistics _) as [e|r]; [|reflexivity].
    simpl. destruct (is_ClientError e); reflexivity.
Qed.

(** X21.  [list_verified_email_addresses] asks for the identities of type
    ["EmailAddress"] and returns the ["Identities"] entry of the answer, or
    the empty list when the answer has no such entry; an exception of the
    remote call is raised unchanged. *)
Theorem list_verified_email_addresses_result :
  list_verified_email_addresses operations self
  = (CallListIdentities "EmailAddress" ::
       printed "Error listing verified email addresses: "
         (api_list_identities (operations (self_client self)) "EmailAddress"),
     match api_list_identities (operations (self_client self)) "EmailAddress" with
     | inl e => Raise e
     | inr response => Return (default (VList []) (response !! "Identities"))
     end).
Proof.
  unfold list_verified_email_addresses, try_catch, remote, printed.
  destruct (api_list_identities _ _) as [e|r]; [|reflexivity].
  simpl. destruct (is_ClientError e); reflexivity.
Qed.

End SESClientOperationsFacts.

(** ** cli.py *)

Section CliFacts.
Context (boto3 : boto3_module).

Lemma cli_cases (profile region : option string) :
  (∃ p t, profile = Some p ∧ p ≠ ""
          ∧ (validate_profile boto3 (VStr p)).2 = inr false
          ∧ ∃ line, cli boto3 profile region = (t ++ [Echo line true], Exit 1)
                    ∧ echoes t = [])
  ∨ ((∀ p, profile = Some p → p ≠ "" →
           (validate_profile boto3 (VStr p)).2 ≠ inr false)
     ∧ ∃ t, echoes t = []
            ∧ (cli boto3 profile region = (t, Return (profile, region))
               ∨ ∃ e, cli boto3 profile region = (t, Raise e))).
Proof.
  unfold cli. destruct profile as [p|].
  2:{ right. split; [intros ? [=]|]. exists []. split; [reflexivity|]. left. reflexivity. }
  simpl. destruct (String.eqb p "") eqn:Hp; simpl.
  { right. apply String.eqb_eq in Hp. split; [intros ? [= <-] ?; congruence|].
    exists []. split; [reflexivity|]. left. reflexivity. }
  apply String.eqb_neq in Hp.
  assert (∀ t : list call, echoes (Boto <$> t) = []) as Hb.
  { intros t. induction t as [|c t IH]; [reflexivity | exact IH]. }
  destruct (validate_profile boto3 (VStr p)) as [t [e|[|]]] eqn:Hv; simpl.
  - right. split; [intros ? [= <-] _; rewrite Hv; simpl; discriminate|].
    exists (Boto <$> t). split; [apply Hb|]. right. exists e. reflexivity.
  - right. split; [intros ? [= <-] _; rewrite Hv; simpl; discriminate|].
    exists (Boto <$> t). split; [apply Hb|]. left. rewrite app_nil_r. reflexivity.
  - assert ((validate_profile boto3 (VStr p)).2 = inr false) as Hv2
      by (rewrite Hv; reflexivity).
    destruct (String.eqb (lower p) "latest") eqn:Hl; simpl.
    + apply String.eqb_eq in Hl.
      rewrite (validate_profile_latest_eq boto3 p Hl) in Hv.
      unfold get_available_profiles. simpl.
      destruct (Session boto3 VNone) as [e|s]; [discriminate|]. simpl.
      injection Hv as <- Hv.
      destruct (available_profiles s); [|discriminate]. simpl.
      left. exists p, [Boto (CallSession VNone); Boto (CallSession VNone)].
      repeat split; try assumption. eexists. split; reflexivity.
    + left. exists p, (Boto <$> t). repeat split; try assumption.
      eexists. split; [|apply Hb]. rewrite ?app_nil_r. reflexivity.
Qed.

(** X22.  The group callback exits, with status 1, exactly when a
    non-empty profile is given and [validate_profile] returns [False]; it
    then echoes one line, to the error stream.  When it returns, it has
    echoed nothing and kept the profile and the region as given
    (["latest"] is not resolved here). *)
Theorem cli_exit (profile region : option string) :
  (∀ code, (cli boto3 profile region).2 = Exit code →
     code = 1%Z
     ∧ ∃ line, echoes (cli boto3 profile region).1 = [(line, true)])
  ∧ ((cli boto3 profile region).2 = Exit 1
     ↔ ∃ p, profile = Some p ∧ p ≠ ""
            ∧ (validate_profile boto3 (VStr p)).2 = inr false)
  ∧ (∀ ctx, (cli boto3 profile region).2 = Return ctx →
       ctx = (profile, region) ∧ echoes (cli boto3 profile region).1 = []).
Proof.
  assert (∀ t line, echoes t = [] → echoes (t ++ [Echo line true]) = [(line, true)]) as He.
  { intros t line H. unfold echoes in *. rewrite omap_app, H. reflexivity. }
  destruct (cli_cases profile region)
    as [(p & t & Hp & Hne & Hv & line & Hc & Ht)
       |(Hn & t & Ht & [Hc|[e Hc]])]; rewrite Hc; simpl.
  - split; [|split].
    + intros code [= <-]. split; [reflexivity|]. exists line. apply He, Ht.
    + split; [|reflexivity]. intros _. exists p. repeat split; assumption.
    + intros ctx [=].
  - split; [|split].
    + intros code [=].
    + split; [intros [=]|]. intros (p & Hp & Hne & Hv). destruct (Hn p Hp Hne Hv).
    + intros ctx [= <-]. split; [reflexivity | exact Ht].
  - split; [|split].
    + intros code [=].
    + split; [intros [=]|]. intros (p & Hp & Hne & Hv). destruct (Hn p Hp Hne Hv).
    + intros ctx [=].
Qed.

(** X23.  The line echoed before the exit: for ["latest"], in any letter
    case, that no profile is configured; for any other name, that the
    profile is not found. *)
Theorem cli_exit_message (p : string) (region : option string) :
  p ≠ "" →
  (validate_profile boto3 (VStr p)).2 = inr false →
  cli boto3 (Some p) region
  = (if String.eqb (lower p) "latest"
     then [Boto (CallSession VNone); Boto (CallSession VNone);
           Echo "No AWS profiles found when trying to use 'latest'" true]
     else [Boto (CallSession (VStr p));
           Echo ("Profile '" +:+ p +:+ "' not found") true],
     Exit 1).
Proof.
  intros Hp Hv. unfold cli. simpl.
  rewrite (nonempty_eqb p Hp). simpl.
  destruct (String.eqb (lower p) "latest") eqn:Hl.
  - apply String.eqb_eq in Hl.
    rewrite (validate_profile_latest_eq boto3 p Hl) in *. simpl in Hv.
    unfold get_available_profiles. simpl.
    destruct (Session boto3 VNone) as [e|s]; [discriminate|]. simpl in *.
    destruct (available_profiles s); [reflexivity | discriminate].
  - assert (lower p ≠ "latest") as Hl' by (apply String.eqb_neq; exact Hl).
    unfold validate_profile in *. simpl in *. rewrite Hl in *. simpl in *.
    destruct (Session boto3 (VStr p)) as [e|s]; simpl in *; [|discriminate].
    destruct (class_of e); try discriminate. reflexivity.
Qed.

End CliFacts.

(** ** cli.py: the commands *)

Lemma echoes_app (t t' : list effect) : echoes (t ++ t') = echoes t ++ echoes t'.
Proof. unfold echoes. apply omap_app. Qed.

Lemma boto_calls_app (t t' : list effect) :
  boto_calls (t ++ t') = boto_calls t ++ boto_calls t'.
Proof. unfold boto_calls. apply omap_app. Qed.

Lemma echoes_Boto (t : list call) : echoes (Boto <$> t) = [].
Proof. induction t as [|c t IH]; [reflexivity | exact IH]. Qed.

Lemma boto_calls_Boto (t : list call) : boto_calls (Boto <$> t) = t.
Proof. induction t as [|c t IH]; [reflexivity | simpl; f_equal; exact IH]. Qed.

Section SendCommand.
Context (boto3 : boto3_module) (format : value → string).
Context (ctx : option string * option string) (from_email : string)
        (to cc bcc reply_to : list string) (subject body_text : string)
        (body_html : option string).

(** The calls of the command to boto3 are those of the construction and of
    [send_email], whatever the outcome. *)
Lemma send_calls :
  ∃ t0 : list call,
    sent t0 = []
    ∧ (boto_calls (send boto3 format ctx from_email to cc bcc reply_to
                     subject body_text body_html).1 = t0
       ∨ ∃ self : SESClient,
           boto_calls (send boto3 format ctx from_email to cc bcc reply_to
                         subject body_text body_html).1
           = t0 ++ (send_email self (VStr from_email) (VList (VStr <$> to))
                      (VStr subject) (VStr body_text) (optional body_html)
                      (list_or_none cc) (list_or_none bcc)
                      (list_or_none reply_to)).1).
Proof.
  unfold send.
  pose proof (init_sends_nothing boto3 (optional ctx.1) (optional ctx.2)) as Hi.
  destruct (__init__ boto3 (optional ctx.1) (optional ctx.2)) as [t0 [e|self]];
    simpl in *; exists t0; (split; [exact Hi|]).
  { left. rewrite boto_calls_app, boto_calls_Boto. simpl. apply app_nil_r. }
  right. exists self.
  destruct (send_email self (VStr from_email) (VList (VStr <$> to)) (VStr subject)
              (VStr body_text) (optional body_html) (list_or_none cc)
              (list_or_none bcc) (list_or_none reply_to)) as [t1 [e|r]]; simpl.
  { rewrite !boto_calls_app, !boto_calls_Boto. simpl. rewrite app_nil_r. reflexivity. }
  unfold getitem. destruct (r !! "MessageId"); simpl;
    rewrite !boto_calls_app, !boto_calls_Boto; simpl; rewrite ?app_nil_r; reflexivity.
Qed.

(** X24.  The command [send] lets no exception escape.  When the
    construction of the client raises [e], it echoes "Error sending email: "
    followed by [str(e)] to the error stream and exits with status 1, and
    no request was sent.  When [send_email] raises [e], it echoes the same
    line for that [e] and exits with status 1, after the one request.
    When the result has no ["MessageId"], it echoes "Error sending email:
    'MessageId'" and exits with status 1, although the request was sent.
    Otherwise it echoes "Email sent! Message ID: " followed by the
    identifier of the result, to standard output, and returns. *)
Theorem send_outcome :
  let r := send boto3 format ctx from_email to cc bcc reply_to
             subject body_text body_html in
  match (__init__ boto3 (optional ctx.1) (optional ctx.2)).2 with
  | inl e =>
      r.2 = Exit 1
      ∧ echoes r.1 = [("Error sending email: " +:+ str e, true)]
      ∧ sent (boto_calls r.1) = []
  | inr self =>
      match (send_email self (VStr from_email) (VList (VStr <$> to))
               (VStr subject) (VStr body_text) (optional body_html)
               (list_or_none cc) (list_or_none bcc) (list_or_none reply_to)).2 with
      | inl e =>
          r.2 = Exit 1
          ∧ echoes r.1 = [("Error sending email: " +:+ str e, true)]
          ∧ List.length (sent (boto_calls r.1)) = 1
      | inr response =>
          match response !! "MessageId" with
          | Some id =>
              r.2 = Return tt
              ∧ echoes r.1 = [("Email sent! Message ID: " +:+ format id, false)]
              ∧ List.length (sent (boto_calls r.1)) = 1
          | None =>
              r.2 = Exit 1
              ∧ echoes r.1 = [("Error sending email: 'MessageId'", true)]
              ∧ List.length (sent (boto_calls r.1)) = 1
          end
      end
  end.
Proof.
  unfold send.
  pose proof (init_sends_nothing boto3 (optional ctx.1) (optional ctx.2)) as Hi.
  destruct (__init__ boto3 (optional ctx.1) (optional ctx.2)) as [t0 [e|self]];
    simpl in *.
  { split; [reflexivity|]. split.
    - rewrite echoes_app, echoes_Boto. reflexivity.
    - rewrite boto_calls_app, boto_calls_Boto, sent_app, Hi. reflexivity. }
  pose proof (send_email_one_request self (VStr from_email) (VList (VStr <$> to))
                (VStr subject) (VStr body_text) (optional body_html)
                (list_or_none cc) (list_or_none bcc) (list_or_none reply_to)) as Hs.
  destruct (send_email self (VStr from_email) (VList (VStr <$> to)) (VStr subject)
              (VStr body_text) (optional body_html) (list_or_none cc)
              (list_or_none bcc) (list_or_none reply_to)) as [t1 [e|r]]; simpl in *.
  { split; [reflexivity|]. split.
    - rewrite !echoes_app, !echoes_Boto. reflexivity.
    - rewrite !boto_calls_app, !boto_calls_Boto, !sent_app, Hi. simpl.
      rewrite app_nil_r. exact Hs. }
  unfold getitem. destruct (r !! "MessageId") as [id|]; simpl.
  - split; [reflexivity|]. split.
    + rewrite !echoes_app, !echoes_Boto. reflexivity.
    + rewrite !boto_calls_app, !boto_calls_Boto, !sent_app, Hi. simpl.
      rewrite app_nil_r. exact Hs.
  - split; [reflexivity|]. split.
    + rewrite !echoes_app, !echoes_Boto. reflexivity.
    + rewrite !boto_calls_app, !boto_calls_Boto, !sent_app, Hi. simpl.
      rewrite !app_nil_r. exact Hs.
Qed.

(** X25.  The request of the command [send]: the recipients given with
    [--to] as a list, as they are; [--cc], [--bcc] and [--reply-to] as
    lists when at least one is given, and left out otherwise; the HTML part
    when [--body-html] is given and not empty. *)
Theorem send_request (p : gmap string value) :
  p ∈ sent (boto_calls (send boto3 format ctx from_email to cc bcc reply_to
                          subject body_text body_html).1) →
  lookup_path (VDict p) ["Source"] = Some (VStr from_email)
  ∧ lookup_path (VDict p) ["Destination"; "ToAddresses"] = Some (VList (VStr <$> to))
  ∧ lookup_path (VDict p) ["Destination"; "CcAddresses"]
    = match cc with [] => None | _ => Some (VList (VStr <$> cc)) end
  ∧ lookup_path (VDict p) ["Destination"; "BccAddresses"]
    = match bcc with [] => None | _ => Some (VList (VStr <$> bcc)) end
  ∧ lookup_path (VDict p) ["ReplyToAddresses"]
    = match reply_to with [] => None | _ => Some (VList (VStr <$> reply_to)) end
  ∧ lookup_path (VDict p) ["Message"; "Subject"; "Data"] = Some (VStr subject)
  ∧ lookup_path (VDict p) ["Message"; "Body"; "Text"; "Data"] = Some (VStr body_text)
  ∧ lookup_path (VDict p) ["Message"; "Body"; "Html"]
    = match body_html with
      | Some h => if String.eqb h "" then None
                  else Some (VDict {[ "Data" := VStr h ]})
      | None => None
      end.
Proof.
  intros Hp.
  destruct send_calls as (t0 & H0 & [Hc|(self & Hc)]); rewrite Hc in Hp.
  { rewrite H0 in Hp. inversion Hp. }
  rewrite sent_app, H0 in Hp. simpl in Hp.
  destruct (send_email_sent self (VStr from_email) (VList (VStr <$> to))
              (VStr subject) (VStr body_text) (optional body_html)
              (list_or_none cc) (list_or_none bcc) (list_or_none reply_to))
    as (q & Hq & Hs & Ht & Hcc & Hbcc & Hrt & Hsu & Hb & _ & Hh).
  rewrite Hq in Hp. apply list_elem_of_singleton in Hp. subst q.
  repeat split; try assumption.
  - rewrite Hcc. destruct cc; reflexivity.
  - rewrite Hbcc. destruct bcc; reflexivity.
  - rewrite Hrt. destruct reply_to; reflexivity.
  - rewrite Hh. destruct body_html as [h|]; [|reflexivity]. simpl.
    destruct (String.eqb h ""); reflexivity.
Qed.

End SendCommand.

Section OtherCommands.
Context (boto3 : boto3_module) (operations : ses_api → ses_operations).

(** X26.  The command [verify] echoes the confirmation only when the client
    is constructed and the remote call succeeds.  Otherwise it echoes
    "Error verifying email: " and the text of the exception to the error
    stream and exits with status 1: without any remote call when the
    construction fails, and after the line that [verify_email_identity]
    prints when the remote call raises a [ClientError]. *)
Theorem verify_effects (ctx : option string * option string) (email : string) :
  verify boto3 operations ctx email
  = match __init__ boto3 (optional ctx.1) (optional ctx.2) with
    | (t0, inl e) =>
        ((Boto <$> t0) ++ [Echo ("Error verifying email: " +:+ str e) true], Exit 1)
    | (t0, inr self) =>
        match api_verify_email_identity (operations (self_client self)) (VStr email) with
        | inr _ =>
            ((Boto <$> t0)
               ++ [CallVerifyEmailIdentity (VStr email);
                   Echo ("Verification email sent to " +:+ email +:+ ". "
                         +:+ "Check your inbox and follow the instructions to complete verification.")
                        false],
             Return tt)
        | inl e =>
            ((Boto <$> t0)
               ++ CallVerifyEmailIdentity (VStr email)
                  :: (if is_ClientError e
                      then [Boto (CallPrint ("Error verifying email identity: " +:+ str e))]
                      else [])
               ++ [Echo ("Error verifying email: " +:+ str e) true],
             Exit 1)
        end
    end.
Proof.
  unfold verify.
  destruct (__init__ boto3 (optional ctx.1) (optional ctx.2)) as [t0 [e|self]];
    simpl; [reflexivity|].
  unfold verify_email_identity, try_catch, remote.
  destruct (api_verify_email_identity (operations (self_client self)) (VStr email))
    as [e|r]; simpl.
  - destruct (is_ClientError e); simpl; rewrite <- ?app_assoc; reflexivity.
  - reflexivity.
Qed.

Lemma list_profiles_loop_effects (pn : string) (l : list string) :
  get_latest_profile boto3 = ([CallSession VNone], inr (VStr pn)) →
  ∃ t : list effect,
    list_profiles_loop boto3 l = (t, Return tt)
    ∧ boto_calls t = replicate (List.length l) (CallSession VNone)
    ∧ echoes t = (λ p, (profile_line pn p, false)) <$> l.
Proof.
  intros Hg. induction l as [|p l (t & Ht & Hb & He)].
  - exists []. repeat split.
  - simpl. rewrite Hg, Ht. unfold lift. simpl. unfold profile_line.
    destruct (String.eqb p pn); simpl;
      eexists; (split; [reflexivity|]); simpl; rewrite Hb, He; split; reflexivity.
Qed.

(** X27.  With the default session available, [list_profiles] echoes "No
    AWS profiles found." when none is configured; otherwise a heading and
    one line for each profile, in order, marked "(latest)" exactly when its
    name is that of the last profile.  It asks for a session once and then
    once more for each profile. *)
Theorem list_profiles_output (s : boto_session) :
  Session boto3 VNone = inr s →
  ∃ t : list effect,
    list_profiles boto3 = (t, Return tt)
    ∧ boto_calls t
      = replicate (S (List.length (available_profiles s))) (CallSession VNone)
    ∧ echoes t
      = match last (available_profiles s) with
        | None => [("No AWS profiles found.", false)]
        | Some pn =>
            ("Available AWS profiles:", false)
              :: ((λ p, (profile_line pn p, false)) <$> available_profiles s)
        end.
Proof.
  intros Hd. unfold list_profiles, get_available_profiles. simpl.
  rewrite Hd. simpl.
  destruct (available_profiles s) as [|a l] eqn:Ha.
  { eexists. repeat split. }
  destruct (last (a :: l)) as [pn|] eqn:Hl; [|apply last_None in Hl; discriminate].
  assert (get_latest_profile boto3 = ([CallSession VNone], inr (VStr pn))) as Hg.
  { rewrite get_latest_profile_eq, Hd, Ha, Hl. reflexivity. }
  destruct (list_profiles_loop_effects pn (a :: l) Hg) as (t & Ht & Hb & He).
  rewrite Ht. eexists. split; [reflexivity|]. simpl.
  rewrite Hb, He. split; reflexivity.
Qed.

End OtherCommands.

(** ** Instances of the further properties *)

Lemma validate_profile_latest_witness :
  validate_profile (configured_boto3 [] (inr ∅)) (VStr "LATEST")
  = ([CallSession VNone], inr false).
Proof.
  apply (validate_profile_latest (configured_boto3 [] (inr ∅)) "LATEST").
  reflexivity.
Defined.

Lemma validate_profile_named_witness :
  validate_profile (configured_boto3 ["default"; "dev"] (inr ∅)) (VStr "nonexistent")
  = ([CallSession (VStr "nonexistent")], inr false).
Proof.
  apply (validate_profile_named (configured_boto3 ["default"; "dev"] (inr ∅))
           "nonexistent").
  discriminate.
Defined.

Lemma resolve_latest_validates_witness :
  (validate_profile (configured_boto3 ["default"; "dev"; "prod"] (inr ∅))
     (VStr "latest")).2 = inr true.
Proof.
  apply (resolve_latest_validates
           (configured_boto3 ["default"; "dev"; "prod"] (inr ∅))
           "latest" [CallSession VNone] (VStr "prod")); reflexivity.
Defined.

Lemma resolve_profile_name_idempotent_witness :
  (resolve_profile_name (configured_boto3 ["default"; "dev"; "prod"] (inr ∅))
     (VStr "prod")).2 = inr (VStr "prod").
Proof.
  apply (resolve_profile_name_idempotent
           (configured_boto3 ["default"; "dev"; "prod"] (inr ∅))
           (VStr "latest") [CallSession VNone] (VStr "prod")).
  reflexivity.
Defined.


Lemma create_session_binds_resolved_witness :
  (_create_session (configured_boto3 ["default"; "dev"; "prod"] (inr ∅))
     (VStr "latest")).1
  = [CallSession VNone; CallSession (VStr "prod")].
Proof.
  rewrite (create_session_binds_resolved
             (configured_boto3 ["default"; "dev"; "prod"] (inr ∅))
             "latest" [CallSession VNone] (VStr "prod")); reflexivity.
Defined.


Lemma init_named_profile_witness :
  __init__ (configured_boto3 ["default"; "dev"] (inr ∅)) (VStr "staging") VNone
  = ([CallSession (VStr "staging")],
     inl (Exn ProfileNotFound "The config profile (staging) could not be found")).
Proof.
  rewrite (init_named_profile (configured_boto3 ["default"; "dev"] (inr ∅))
             "staging" VNone); [reflexivity | discriminate | discriminate].
Defined.

Lemma handler_environment_witness :
  handler (configured_boto3 ["default"; "dev"] (inr ∅))
    {[ "AWS_PROFILE" := "nonexistent" ]}
    (<["profile_name" := VStr "dev"]> minimal_event)
  = handler (configured_boto3 ["default"; "dev"] (inr ∅)) ∅
      (<["profile_name" := VStr "dev"]> minimal_event).
Proof.
  apply (handler_environment (configured_boto3 ["default"; "dev"] (inr ∅))
           {[ "AWS_PROFILE" := "nonexistent" ]} ∅
           (<["profile_name" := VStr "dev"]> minimal_event)).
  - left. reflexivity.
  - right. reflexivity.
Defined.

Lemma handler_environment_default_witness :
  handler (configured_boto3 ["default"; "dev"] (inr ∅))
    {[ "AWS_PROFILE" := "env_profile" ]} minimal_event
  = handler (configured_boto3 ["default"; "dev"] (inr ∅))
      {[ "AWS_PROFILE" := "env_profile" ]}
      (<["profile_name" := VStr "env_profile"]> minimal_event).
Proof.
  apply (handler_environment_default (configured_boto3 ["default"; "dev"] (inr ∅))
           {[ "AWS_PROFILE" := "env_profile" ]} minimal_event
           "profile_name" "AWS_PROFILE" "env_profile").
  - apply list_elem_of_here.
  - reflexivity.
  - reflexivity.
Defined.

Lemma handler_no_message_id_witness :
  (handler (fixed_boto3 ["default"] (inr {[ "ResponseMetadata" := VDict ∅ ]}))
     ∅ minimal_event).2
  = {| statusCode := 500;
       body := json_dumps (VDict {[ "message" :=
         VStr "Error sending email: 'MessageId'" ]}) |}
  ∧ List.length
      (sent (handler (fixed_boto3 ["default"] (inr {[ "ResponseMetadata" := VDict ∅ ]}))
               ∅ minimal_event).1) = 1.
Proof.
  eapply (handler_no_message_id
            (fixed_boto3 ["default"] (inr {[ "ResponseMetadata" := VDict ∅ ]}))
            ∅ minimal_event);
    reflexivity.
Defined.

Lemma handler_status_witness :
  statusCode (handler (fixed_boto3 ["default"] (inr {[ "MessageId" := VStr "0100-01" ]}))
                ∅ minimal_event).2 = 200%Z
  ∧ List.length
      (sent (handler (fixed_boto3 ["default"] (inr {[ "MessageId" := VStr "0100-01" ]}))
               ∅ minimal_event).1) = 1.
Proof.
  split; [reflexivity|].
  apply (handler_status
           (fixed_boto3 ["default"] (inr {[ "MessageId" := VStr "0100-01" ]}))
           ∅ minimal_event).
  reflexivity.
Defined.

Lemma handler_request_of_event_witness :
  Forall (λ p, lookup_path (VDict p) ["Destination"; "ToAddresses"]
               = Some (VList [VStr "b@x.com"]))
    (sent (handler (fixed_boto3 ["default"] (inr ∅)) ∅ minimal_event).1).
Proof.
  apply Forall_forall. intros p Hp.
  apply (handler_request_of_event (fixed_boto3 ["default"] (inr ∅)) ∅
           minimal_event p Hp).
Defined.

Lemma handler_ignores_other_keys_witness :
  handler (fixed_boto3 ["default"] (inr ∅)) ∅
    (<["attachments" := VList [VStr "a.pdf"]]> minimal_event)
  = handler (fixed_boto3 ["default"] (inr ∅)) ∅ minimal_event.
Proof.
  apply (handler_ignores_other_keys (fixed_boto3 ["default"] (inr ∅)) ∅
           minimal_event "attachments" (VList [VStr "a.pdf"])).
  unfold event_keys. intros H.
  repeat (apply elem_of_cons in H as [H|H]; [discriminate|]).
  inversion H.
Defined.

Lemma cli_exit_witness :
  (cli (configured_boto3 ["default"; "dev"] (inr ∅)) (Some "staging") None).2 = Exit 1.
Proof.
  apply (cli_exit (configured_boto3 ["default"; "dev"] (inr ∅)) (Some "staging") None).
  exists "staging". repeat split. discriminate.
Defined.

Lemma cli_exit_message_witness :
  cli (configured_boto3 [] (inr ∅)) (Some "latest") (Some "us-east-1")
  = ([Boto (CallSession VNone); Boto (CallSession VNone);
      Echo "No AWS profiles found when trying to use 'latest'" true],
     Exit 1).
Proof.
  apply (cli_exit_message (configured_boto3 [] (inr ∅)) "latest" (Some "us-east-1")).
  - discriminate.
  - reflexivity.
Defined.

Lemma send_request_witness :
  Forall (λ p, lookup_path (VDict p) ["Destination"; "CcAddresses"] = None
               ∧ lookup_path (VDict p) ["Destination"; "ToAddresses"]
                 = Some (VList [VStr "b@x.com"; VStr "c@x.com"]))
    (sent (boto_calls
             (send (fixed_boto3 ["default"] (inr {[ "MessageId" := VStr "0100-01" ]}))
                (λ _, "0100-01") (None, None) "a@x.com" ["b@x.com"; "c@x.com"]
                [] [] [] "s" "t" None).1)).
Proof.
  apply Forall_forall. intros p Hp.
  pose proof (send_request
                (fixed_boto3 ["default"] (inr {[ "MessageId" := VStr "0100-01" ]}))
                (λ _, "0100-01") (None, None) "a@x.com" ["b@x.com"; "c@x.com"]
                [] [] [] "s" "t" None p Hp) as (_ & Ht & Hcc & _).
  split; [exact Hcc | exact Ht].
Defined.

Lemma list_profiles_output_witness :
  ∃ t : list effect,
    list_profiles (fixed_boto3 ["default"; "dev"; "default"] (inr ∅)) = (t, Return tt)
    ∧ boto_calls t = replicate 4 (CallSession VNone)
    ∧ echoes t = [("Available AWS profiles:", false);
                  ("  - default (latest)", false);
                  ("  - dev", false);
                  ("  - default (latest)", false)].
Proof.
  apply (list_profiles_output (fixed_boto3 ["default"; "dev"; "default"] (inr ∅))
           (Build_boto_session ["default"; "dev"; "default"]
              (λ _ _, inr {| api_send_email := λ _, inr ∅ |}))).
  reflexivity.
Defined.

(** The command [verify] when the address is rejected: the error is printed
    by the client and echoed by the command. *)
Example verify_client_error :
  verify (fixed_boto3 ["default"] (inr ∅))
    (fixed_operations (inr ∅) (inl (Exn ClientError "Throttling")))
    (None, Some "us-east-1") "a@x.com"
  = ([Boto (CallSession VNone); Boto (CallClient "ses" (VStr "us-east-1"));
      CallVerifyEmailIdentity (VStr "a@x.com");
      Boto (CallPrint "Error verifying email identity: Throttling");
      Echo "Error verifying email: Throttling" true],
     Exit 1).
Proof. reflexivity. Qed.

(** Listing the verified addresses when the service reports none. *)
Example list_verified_none :
  list_verified_email_addresses (fixed_operations (inr ∅) (inr ∅))
    (fixed_client (inr ∅))
  = ([CallListIdentities "EmailAddress"], Return (VList [])).
Proof. reflexivity. Qed.
